(** * In-silico solvent optimization: a shallow embedding

    Embedding of [case_studies/in_silico_studies/solvent_optimization.py]:
    the simulated-experiment oracle ([Experiments]), the construction of the
    principal-component dataset ([create_pcs_ds]) and the batch optimization
    driver ([generate_initial_experiment_data], [run_optimization],
    [descriptors_optimization], [SolventEvolutionaryOptimization]).

    Conventions.
    - Python exceptions are values of [exn]; a computation that can raise
      returns a [result].
    - Mutable [RandomState] objects live in a [Heap]; code that draws from
      one is written in the monad [M] (heap passing plus exceptions).
    - numpy doubles are modelled by [float]: exact rationals together with
      the special values infinity and NaN.  Rounding and the sign of zero
      are abstracted away; the special-value rules are those of numpy
      (division by zero gives inf or nan, it does not raise).
    - Libraries the module only calls (the Mersenne twister behind
      [RandomState], the vode integrator, [np.exp]/[np.log], the Latin
      hypercube designer, the TSEMO strategy, sklearn's PCA) are the fields
      of the class [Externals]: nothing is assumed about them beyond their
      types, and module [Toy] gives one instance to run the model on. *)

From Stdlib Require Import ZArith QArith Qabs Qround List String Bool Lia Lqa.
Import ListNotations.

Local Open Scope Z_scope.

(** ** Exceptions and results *)

Inductive exn : Type :=
| RuntimeError (msg : string)
| AttributeError (msg : string)
| TypeError (msg : string)
| ValueError (msg : string)
| IndexError (msg : string)
| KeyError (msg : string)
| NameError (msg : string)
| OverflowError (msg : string)
| AssertionError
| ExternalError (msg : string).

Inductive result (A : Type) : Type :=
| Ok (a : A)
| Raise (e : exn).

Arguments Ok {A} a.
Arguments Raise {A} e.

Definition rbind {A B} (r : result A) (k : A -> result B) : result B :=
  match r with
  | Ok a => k a
  | Raise e => Raise e
  end.

Declare Scope result_scope.
Delimit Scope result_scope with result.
Notation "'let?' x ':=' r 'in' k" := (rbind r (fun x => k))
  (at level 10, x pattern, r at level 100, k at level 200) : result_scope.

(** ** numpy doubles *)

Module Float.

Inductive float : Type :=
| Fin (q : Q)
| Inf (negative : bool)
| NaN.

Definition of_Q (q : Q) : float := Fin (Qred q).
Definition of_Z (z : Z) : float := Fin (inject_Z z).

Definition zero : float := of_Z 0.

Definition isnan (a : float) : bool :=
  match a with NaN => true | _ => false end.

Definition neg (a : float) : float :=
  match a with
  | Fin x => Fin (Qred (- x))
  | Inf s => Inf (negb s)
  | NaN => NaN
  end.

Definition add (a b : float) : float :=
  match a, b with
  | NaN, _ | _, NaN => NaN
  | Fin x, Fin y => Fin (Qred (x + y))
  | Inf s, Fin _ | Fin _, Inf s => Inf s
  | Inf s1, Inf s2 => if Bool.eqb s1 s2 then Inf s1 else NaN
  end.

Definition sub (a b : float) : float := add a (neg b).

Definition mul (a b : float) : float :=
  match a, b with
  | NaN, _ | _, NaN => NaN
  | Fin x, Fin y => Fin (Qred (x * y))
  | Inf s, Fin y | Fin y, Inf s =>
      match y ?= 0 with
      | Eq => NaN
      | Gt => Inf s
      | Lt => Inf (negb s)
      end
  | Inf s1, Inf s2 => Inf (xorb s1 s2)
  end%Q.

(** numpy division: [0/0] is nan, [x/0] is a signed infinity. *)
Definition div (a b : float) : float :=
  match a, b with
  | NaN, _ | _, NaN => NaN
  | Fin x, Fin y =>
      match y ?= 0 with
      | Eq => match x ?= 0 with
              | Eq => NaN
              | Gt => Inf false
              | Lt => Inf true
              end
      | _ => Fin (Qred (x / y))
      end
  | Fin _, Inf _ => Fin 0
  | Inf s, Fin y => match y ?= 0 with Lt => Inf (negb s) | _ => Inf s end
  | Inf _, Inf _ => NaN
  end%Q.

Definition abs (a : float) : float :=
  match a with
  | Fin x => Fin (Qred (Qabs x))
  | Inf _ => Inf false
  | NaN => NaN
  end.

(** [a <= b] on doubles; false as soon as a nan is involved. *)
Definition leb (a b : float) : bool :=
  match a, b with
  | NaN, _ | _, NaN => false
  | Fin x, Fin y => Qle_bool x y
  | Inf true, _ => true
  | _, Inf false => true
  | _, _ => false
  end.

Definition le (a b : float) : Prop := leb a b = true.

(** Binary step of [np.min]: a nan propagates. *)
Definition min2 (a b : float) : float :=
  match a, b with
  | NaN, _ | _, NaN => NaN
  | _, _ => if leb a b then a else b
  end.

(** Python's [int()] on a double: truncation toward zero. *)
Definition to_int (a : float) : result Z :=
  match a with
  | Fin x => Ok (Z.quot (Qnum x) (Zpos (Qden x)))
  | Inf _ => Raise (OverflowError "cannot convert float infinity to integer")
  | NaN => Raise (ValueError "cannot convert float NaN to integer")
  end.

End Float.
Import Float.

Declare Scope float_scope.
Delimit Scope float_scope with float.
Infix "+" := Float.add : float_scope.
Infix "-" := Float.sub : float_scope.
Infix "*" := Float.mul : float_scope.
Infix "/" := Float.div : float_scope.
Notation "- x" := (Float.neg x) : float_scope.

(** ** Random states and the heap

    A [RandomState] is the sequence of standard-normal draws it will still
    produce.  [RandomState] objects are shared by reference (the oracle and
    the initial designer of [descriptors_optimization] hold the same one),
    so they live in a heap.  Cell [0] is the object created once, when the
    module is imported, as the default of [Experiments.__init__]'s
    [random_state] parameter. *)

Definition RandomState : Type := nat -> float.
Definition ref : Type := nat.

Record Heap : Type := mkHeap {
  cell : ref -> RandomState;
  next_ref : ref
}.

Definition default_random_state : ref := 0%nat.

Definition heap_set (h : Heap) (r : ref) (rs : RandomState) : Heap :=
  {| cell := fun r' => if Nat.eqb r' r then rs else cell h r';
     next_ref := next_ref h |}.

Definition M (A : Type) : Type := Heap -> result A * Heap.

Definition ret {A} (a : A) : M A := fun h => (Ok a, h).
Definition raise {A} (e : exn) : M A := fun h => (Raise e, h).
Definition lift {A} (r : result A) : M A := fun h => (r, h).
Definition bind {A B} (c : M A) (k : A -> M B) : M B :=
  fun h => match c h with
           | (Ok a, h') => k a h'
           | (Raise e, h') => (Raise e, h')
           end.

Declare Scope m_scope.
Delimit Scope m_scope with M.
Notation "x <- c ;; k" := (bind c (fun x => k))
  (at level 61, c at next level, right associativity) : m_scope.
Notation "' pat <- c ;; k" := (bind c (fun x => match x with pat => k end))
  (at level 61, pat pattern, c at next level, right associativity) : m_scope.

(** A list comprehension over [l]: left to right, the first exception
    wins. *)
Fixpoint mapM {A B} (f : A -> M B) (l : list A) : M (list B) :=
  match l with
  | [] => ret []
  | a :: l' => (b <- f a ;; bs <- mapM f l' ;; ret (b :: bs))%M
  end.

(** [random_state.randn(1)]: the next draw; the object advances. *)
Definition randn (r : ref) : M float :=
  fun h => let rs := cell h r in
           (Ok (rs 0%nat), heap_set h r (fun k => rs (S k))).

(** ** Data *)

(** A solvent is identified by its CAS number. *)
Definition cas : Type := string.

(** A dataset of solvent descriptors: the index (CAS numbers) and, for each
    row, the values of the data columns ([PC_1], [PC_2], ...). *)
Definition DataSet : Type := list (cas * list float).

Definition index_values (ds : DataSet) : list cas := map fst ds.

(** The data columns of the row [ds.loc] finds for [c], as a vector. *)
Fixpoint loc (ds : DataSet) (c : cas) : result (list float) :=
  match ds with
  | [] => Raise (KeyError c)
  | (c', v) :: ds' => if String.eqb c' c then Ok v else loc ds' c
  end.

(** A fitted [sklearn.decomposition.PCA]: its component matrix. *)
Definition PCA : Type := list (list float).

(** The objects that get bound to a name meant for a solvent dataset:
    a [DataSet], or the pair returned by [create_pcs_ds]. *)
Inductive pyobj : Type :=
| PyDataSet (ds : DataSet)
| PyTuple (ds : DataSet) (pca : PCA).

(** [obj.index.values]: on a tuple, [index] is the built-in method, which
    has no attribute [values]. *)
Definition tuple_has_no_index_values : exn :=
  AttributeError
    "'builtin_function_or_method' object has no attribute 'values'".

Definition obj_index_values (o : pyobj) : result (list cas) :=
  match o with
  | PyDataSet ds => Ok (index_values ds)
  | PyTuple _ _ => Raise tuple_has_no_index_values
  end.

(** Subscription of a sequence by a non-negative index. *)
Definition getitem {A} (l : list A) (i : nat) : result A :=
  match nth_error l i with
  | Some a => Ok a
  | None => Raise (IndexError "index out of range")
  end.

(** Subscription by [-1]: the last element. *)
Definition getlast {A} (l : list A) : result A :=
  match rev l with
  | a :: _ => Ok a
  | [] => Raise (IndexError "index -1 is out of bounds")
  end.

(** [np.min(l)] *)
Definition np_min (l : list float) : result float :=
  match l with
  | [] => Raise (ValueError "zero-size array to reduction operation minimum")
  | a :: l' => Ok (fold_left min2 l' a)
  end.

(** [range(n)] as numbers. *)
Definition zrange (n : Z) : list Z := map Z.of_nat (seq 0 (Z.to_nat n)).

(** Assignment to the last element of a non-empty list. *)
Definition set_last {A} (l : list A) (v : A) : list A :=
  removelast l ++ [v].

(** [np.linspace(start, stop, num)] with the default [endpoint=True]. *)
Definition linspace (start stop : float) (num : Z) : result (list float) :=
  if num <? 0 then
    Raise (ValueError "Number of samples must be non-negative.")
  else
    let div := num - 1 in
    let delta := (stop - start)%float in
    let y := map of_Z (zrange num) in
    let y := if 1 <? num
             then let step := (delta / of_Z div)%float in
                  map (fun v => (v * step)%float) y
             else map (fun v => (v * delta)%float) y in
    let y := map (fun v => (v + start)%float) y in
    Ok (if 1 <? num then set_last y stop else y).

(** [np.zeros(n, dtype=int)] and [k * np.ones(n, dtype=int)]. *)
Definition np_full (n : Z) (k : Z) : result (list Z) :=
  if n <? 0 then Raise (ValueError "negative dimensions are not allowed")
  else Ok (repeat k (Z.to_nat n)).

(** [np.arange(a, b)] *)
Definition arange (a b : Z) : list Z := map (fun i => a + i) (zrange (b - a)).

(** The table of experiments: one row per evaluated solvent. *)
Record Row : Type := mkRow {
  row_index : Z;
  conversion : float;
  de : float;
  solvent : cas;
  batch : Z
}.

Definition Experiment_table : Type := list Row.

(** The two columns of [np.array(rows)]; subscripting the array of an empty
    list by two indices raises. *)
Definition columns (rows : list (float * float))
  : result (list float * list float) :=
  match rows with
  | [] => Raise (IndexError "too many indices for array")
  | _ => Ok (map fst rows, map snd rows)
  end.

Fixpoint zip_rows (idx : list Z) (cs ds : list float) (ss : list cas)
    (bs : list Z) : Experiment_table :=
  match idx, cs, ds, ss, bs with
  | i :: idx', c :: cs', d :: ds', s :: ss', b :: bs' =>
      mkRow i c d s b :: zip_rows idx' cs' ds' ss' bs'
  | _, _, _, _, _ => []
  end.

(** [DataSet({conversion: cs, de: ds, solvent: ss, batch: bs})]: the columns
    must have one length; the new frame is indexed [0 .. n-1]. *)
Definition DataSet_of_columns (cs ds : list float) (ss : list cas)
    (bs : list Z) : result Experiment_table :=
  let n := List.length cs in
  if (Nat.eqb (List.length ds) n && Nat.eqb (List.length ss) n
      && Nat.eqb (List.length bs) n)%bool
  then Ok (zip_rows (arange 0 (Z.of_nat n)) cs ds ss bs)
  else Raise (ValueError "arrays must all be same length").

(** [table.set_index(idx)] *)
Definition set_index (t : Experiment_table) (idx : list Z)
  : result Experiment_table :=
  if Nat.eqb (List.length idx) (List.length t)
  then Ok (map (fun '(i, r) =>
                  mkRow i (conversion r) (de r) (solvent r) (batch r))
               (combine idx t))
  else Raise (ValueError "Length mismatch").

(** The optimization domain of [create_domain]. *)
Inductive DomainVariable : Type :=
| DescriptorsVariable (name description : string) (ds : pyobj)
| ContinuousVariable (name description : string) (bounds : float * float)
    (is_output : bool).

Definition Domain : Type := list DomainVariable.

(** ** The libraries the module calls *)

Class Externals : Type := {
  (** numpy *)
  np_exp : float -> float;
  np_log : float -> float;
  (** the stream of [np.random.RandomState(seed)] *)
  mt19937 : Z -> RandomState;
  (** [scipy.integrate.ode] with the vode integrator: the object after
      [set_initial_value], one call of [integrate], and [successful] *)
  Vode : Type;
  vode_set_initial_value :
    (float -> list float -> result (list float)) -> list float -> float -> Vode;
  vode_integrate :
    (float -> list float -> result (list float)) -> Vode -> float ->
    result (Vode * list float);
  vode_successful : Vode -> bool;
  (** [LatinDesigner(domain, random_state).generate_experiments(n,
      criterion)], as the CAS numbers of the design; it draws from the
      random state *)
  LatinDesigner_generate_experiments :
    Domain -> Z -> string -> RandomState -> result (list cas) * RandomState;
  (** the TSEMO strategy object and what the driver reads from it *)
  TSEMO : Type;
  TSEMO_new : Domain -> TSEMO;
  TSEMO_generate_experiments :
    TSEMO -> Experiment_table -> Z -> bool -> bool ->
    result (list cas * float) * TSEMO;
  TSEMO_lengthscales : TSEMO -> list (list float);
  TSEMO_log_likelihoods : TSEMO -> list float;
  TSEMO_loo_errors : TSEMO -> result (list float);
  (** the merged descriptor tables read by [create_pcs_ds]
      ([solvent_ds_full], [solvent_ds_final]) *)
  read_solvent_tables : result (DataSet * DataSet);
  (** [DataSet.standardize] and sklearn's PCA *)
  standardize : DataSet -> list (list float);
  PCA_fit_transform : Z -> list (list float) -> list (list float) ->
                      result (PCA * list (list float))
}.

(** ** The simulated experiments: class [Experiments] *)

Definition default_rxn_time : float := of_Z 25200.
Definition default_step_size : float := of_Z 200.
Definition default_initial_concentrations : list float :=
  [of_Q (5 # 10); of_Q (5 # 10)].

Record Experiments : Type := mkExperiments {
  solvent_ds : DataSet;
  initial_concentrations : list float;
  random_state : ref;
  pre_calculate : bool;
  cas_numbers : list cas;
  all_experiments : option (list (float * float))
}.

Section Oracle.

Context `{Externals}.

Local Open Scope float_scope.

(** [ca] and [cb] on the one-dimensional state the integrator passes:
    the two-index subscription raises [IndexError], so the handler's
    expression is the value. *)
Definition ca (self : Experiments) (x : list float) : result float :=
  (let? c0 := getitem (initial_concentrations self) 0 in
   let? x0 := getitem x 0 in
   let? x1 := getitem x 1 in
   Ok (c0 - x0 - x1))%result.

Definition cb (self : Experiments) (x : list float) : result float :=
  (let? c1 := getitem (initial_concentrations self) 1 in
   let? x0 := getitem x 0 in
   let? x1 := getitem x 1 in
   Ok (c1 - x0 - x1))%result.

Definition AD1 : float := of_Z 8500000000.
Definition AD2 : float := of_Z 8300000000.
Definition EAD1 : float := of_Z 105.
Definition EAD2 : float := of_Z 110.
Definition TRXN : float := of_Z 393.
Definition R : float := of_Q (8314 # 1000000).

Definition Es1 (pc1 pc2 pc3 : float) : float :=
  - np_log (abs ((pc2 + of_Q (73 # 100) * pc1 - of_Q (446 # 100))
                 * (pc2 + of_Q (2105 # 1000) * pc1 + of_Q (11367 # 1000))))
  + pc3.

Definition Es2 (pc1 pc2 pc3 : float) : float :=
  of_Z (-2) * np_log (abs (pc2 + of_Q (73 # 100) * pc1 - of_Q (446 # 100)))
  - of_Q (2 # 10) * (pc3 * pc3).

(** [_rate]: the right-hand side of the kinetic equations. *)
Definition _rate (self : Experiments) (t : float) (x : list float)
    (solvent_cas : cas) : result (list float) :=
  (let? pc_solvent := loc (solvent_ds self) solvent_cas in
   let? pc1 := getitem pc_solvent 0 in
   let? pc2 := getitem pc_solvent 1 in
   let? pc3 := getitem pc_solvent 2 in
   let es1 := Es1 pc1 pc2 pc3 in
   let es2 := Es2 pc1 pc2 pc3 in
   let T := TRXN in
   let kd1 := AD1 * np_exp (- (EAD1 + es1) / (R * T)) in
   let kd2 := AD2 * np_exp (- (EAD2 + es2) / (R * T)) in
   let? a1 := ca self x in
   let? b1 := cb self x in
   let x1dot := kd1 * a1 * b1 in
   let? a2 := ca self x in
   let? b2 := cb self x in
   let x2dot := kd2 * a2 * b2 in
   Ok [x1dot; x2dot])%result.

(** Assignment of a vector to a row of width [w]: the shapes must agree,
    up to the broadcast of a single value. *)
Definition assign_row (w : nat) (y : list float) : result (list float) :=
  if Nat.eqb (List.length y) w then Ok y
  else match y with
       | [v] => Ok (repeat v w)
       | _ => Raise (ValueError "could not broadcast input array")
       end.

(** The exception of [_integrate_rate]. *)
Definition could_not_integrate (solvent_cas : cas) : exn :=
  RuntimeError ("Could not integrate: " ++ solvent_cas).

(** The loop of [_integrate_rate] over [trange] from index [1] on: the
    rows it writes. *)
Fixpoint integrate_steps (self : Experiments) (solvent_cas : cas)
    (r : Vode) (targets : list float) : result (list (list float)) :=
  match targets with
  | [] => Ok []
  | ti :: targets' =>
      (let? (r', y) :=
         vode_integrate (fun t x => _rate self t x solvent_cas) r ti in
       let? row := assign_row (List.length (initial_concentrations self)) y in
       if vode_successful r'
       then let? rows := integrate_steps self solvent_cas r' targets' in
            Ok (row :: rows)
       else Raise (could_not_integrate solvent_cas))%result
  end.

(** Whether the loop over [targets] reaches a step after which the
    integrator reports that it did not succeed (no exception of another
    kind coming first). *)
Fixpoint reports_nonconvergence (self : Experiments) (solvent_cas : cas)
    (r : Vode) (targets : list float) : bool :=
  match targets with
  | [] => false
  | ti :: targets' =>
      match vode_integrate (fun t x => _rate self t x solvent_cas) r ti with
      | Ok (r', y) =>
          match assign_row (List.length (initial_concentrations self)) y with
          | Ok _ => if vode_successful r'
                    then reports_nonconvergence self solvent_cas r' targets'
                    else true
          | Raise _ => false
          end
      | Raise _ => false
      end
  end.

(** [trange] of [_integrate_rate].  The number of samples handed to
    [np.linspace] is the quotient [(t - t0) / step_size], a double; numpy
    converts it with [int()] (the coercion the module was written against;
    later numpy releases reject a non-integer count). *)
Definition time_grid (t : float) (step_size : float) : result (list float) :=
  let t0 := of_Z 0 in
  (let? num := to_int ((t - t0) / step_size) in
   linspace t0 t num)%result.

(** [range(1, trange.size)]: the number of calls of [integrate]. *)
Definition step_count (trange : list float) : nat := List.length (tl trange).

Definition _integrate_rate (self : Experiments) (solvent_cas : cas)
    (t : float) (step_size : float) : result (list (list float)) :=
  let t0 := of_Z 0 in
  (let? trange := time_grid t step_size in
   let zeros := repeat zero (List.length (initial_concentrations self)) in
   let r := vode_set_initial_value
              (fun t x => _rate self t x solvent_cas) [zero; zero] t0 in
   let? rows := integrate_steps self solvent_cas r (tl trange) in
   Ok (match trange with
       | [] => []
       | _ :: _ => zeros :: rows
       end))%result.

(** The first statement of [_run]: the reaction time with its noise. *)
Definition noisy_rxn_time (rxn_time : float) (draw : float) : float :=
  rxn_time + draw * of_Q (1 # 100) * rxn_time.

(** Column [j] of a two-dimensional array. *)
Definition column (x : list (list float)) (j : nat)
  : result (list float) :=
  match x with
  | [] => Ok []
  | row :: _ =>
      if Nat.ltb j (List.length row)
      then Ok (map (fun r => nth j r zero) x)
      else Raise (IndexError "index is out of bounds for axis 1")
  end.

(** [_run] with [time_series=True]: the two series. *)
Definition _run_series (self : Experiments) (solvent_cas : cas)
    (rxn_time step_size : float) : M (list float * list float) :=
  (draw <- randn (random_state self) ;;
   let rxn_time := noisy_rxn_time rxn_time draw in
   lift (let? x := _integrate_rate self solvent_cas rxn_time step_size in
         let? cd1 := column x 0 in
         let? cd2 := column x 1 in
         let? m := np_min (initial_concentrations self) in
         let conversion := map (fun c1 => c1 / m * of_Z 100) cd1 in
         let de := map (fun '(c1, c2) => c1 / (c1 + c2) * of_Z 100)
                       (combine cd1 cd2) in
         Ok (conversion, de))%result)%M.

(** [_run] with the default [time_series=False]: the last entries. *)
Definition _run (self : Experiments) (solvent_cas : cas)
    (rxn_time step_size : float) : M (float * float) :=
  ('(conversion, de) <- _run_series self solvent_cas rxn_time step_size ;;
   lift (let? conversion := getlast conversion in
         let? de := getlast de in
         Ok (conversion, de))%result)%M.

(** [list.index] *)
Fixpoint list_index (l : list cas) (c : cas) : result nat :=
  match l with
  | [] => Raise (ValueError "is not in list")
  | c' :: l' => if String.eqb c' c then Ok 0%nat
                else (let? i := list_index l' c in Ok (S i))%result
  end.

Definition run (self : Experiments) (solvent_cas : cas)
  : M (float * float) :=
  match all_experiments self with
  | None => _run self solvent_cas default_rxn_time default_step_size
  | Some table =>
      lift (let? index := list_index (cas_numbers self) solvent_cas in
            getitem table index)%result
  end.

(** [Experiments.__init__]; an omitted [random_state] is the object of
    heap cell [default_random_state]. *)
Definition Experiments_init (solvent_ds : pyobj)
    (random_state : option ref)
    (initial_concentrations : option (list float))
    (pre_calculate : bool) : M Experiments :=
  let random_state :=
    match random_state with Some r => r | None => default_random_state end in
  let initial_concentrations :=
    match initial_concentrations with
    | Some c => c
    | None => default_initial_concentrations
    end in
  (cas_numbers <- lift (obj_index_values solvent_ds) ;;
   let ds := match solvent_ds with PyDataSet ds | PyTuple ds _ => ds end in
   let self := mkExperiments ds initial_concentrations random_state
                             pre_calculate cas_numbers None in
   if pre_calculate then
     all <- mapM (fun c => _run self c default_rxn_time default_step_size)
                 cas_numbers ;;
     ret (mkExperiments ds initial_concentrations random_state
                        pre_calculate cas_numbers (Some all))
   else ret self)%M.

End Oracle.

(** ** The principal-component dataset: [create_pcs_ds] *)

Section CandidateSpace.

Context `{Externals}.

(** [np.isnan(values).all()] over the whole matrix. *)
Definition check_all (values : list (list float)) : bool :=
  forallb (forallb isnan) values.

(** The guard of [create_pcs_ds]: [assert check.all() == False]. *)
Definition descriptor_guard (values : list (list float)) : result unit :=
  if Bool.eqb (check_all values) false then Ok tt else Raise AssertionError.

(** [pd.DataFrame(pcs, columns=..., index=...)]: the matrix must have one
    row per index entry and one column per name. *)
Definition DataFrame (pcs : list (list float)) (ncols : Z)
    (index : list cas) : result DataSet :=
  if (Nat.eqb (List.length pcs) (List.length index)
      && forallb (fun row => Z.of_nat (List.length row) =? ncols) pcs)%bool
  then Ok (combine index pcs)
  else Raise (ValueError "Shape of passed values does not match the axes").

Definition create_pcs_ds (num_components : Z) : result pyobj :=
  (let? (solvent_ds_full, solvent_ds_final) := read_solvent_tables in
   let values := map snd solvent_ds_final in
   let? _ := descriptor_guard values in
   let? (pca, pcs) :=
     PCA_fit_transform num_components (standardize solvent_ds_full)
                       (standardize solvent_ds_final) in
   let? pc_df := DataFrame pcs num_components
                           (index_values solvent_ds_final) in
   Ok (PyTuple pc_df pca))%result.

End CandidateSpace.

(** ** The optimization driver *)

Definition create_domain (solvent_ds : pyobj) : Domain :=
  [ DescriptorsVariable "solvent"
      "solvent for the borrowing hydrogen reaction" solvent_ds;
    ContinuousVariable "conversion"
      "relative conversion to triphenylphosphine oxide determined by LCMS"
      (of_Z 0, of_Z 100) true;
    ContinuousVariable "de"
      "diastereomeric excess determined by ratio of LCMS peaks"
      (of_Z 0, of_Z 100) true ].

(** The named tuple returned by [run_optimization]. *)
Record optimization_results : Type := mk_optimization_results {
  experiments : Experiment_table;
  lengthscales : list (list (list float));
  log_likelihoods : list (list float);
  loo_cv_errors : list (list float);
  hv_improvements : list float
}.

(** [np.zeros] with leading dimension [n]: [n] copies of a zero block. *)
Definition np_zeros {A} (n : Z) (block : A) : result (list A) :=
  if n <? 0 then Raise (ValueError "negative dimensions are not allowed")
  else Ok (repeat block (Z.to_nat n)).

(** Assignment to row [i] of an array. *)
Fixpoint set_row {A} (l : list A) (i : nat) (v : A) : result (list A) :=
  match l, i with
  | [], _ => Raise (IndexError "index is out of bounds for axis 0")
  | _ :: l', O => Ok (v :: l')
  | a :: l', S i' => (let? r := set_row l' i' v in Ok (a :: r))%result
  end.

(** The variables of the loop of [run_optimization]. *)
Record LoopState `{Externals} : Type := mkLoopState {
  ls_tsemo : TSEMO;
  ls_previous_experiments : Experiment_table;
  ls_lengthscales : list (list (list float));
  ls_log_likelihoods : list (list float);
  ls_loo_errors : list (list float);
  ls_hv_improvements : list float
}.

Arguments mkLoopState {_} _ _ _ _ _ _.

(** How the loop ends: after its last iteration, or by an exception, with
    the table of experiments gathered up to that moment. *)
Inductive outcome `{Externals} : Type :=
| Completed (st : LoopState)
| Aborted (e : exn) (gathered : Experiment_table).

Arguments Completed {_} _.
Arguments Aborted {_} _ _.

Section Driver.

Context `{Externals}.

Definition optimization_setup (domain : Domain) : TSEMO := TSEMO_new domain.

(** The designer draws from the shared random state object. *)
Definition LatinDesigner (domain : Domain) (random_state : ref)
    (n : Z) (criterion : string) : M (list cas) :=
  fun h =>
    let '(design, rs) :=
      LatinDesigner_generate_experiments domain n criterion
                                         (cell h random_state) in
    (design, heap_set h random_state rs).

Definition generate_initial_experiment_data (domain : Domain)
    (solvent_ds : pyobj) (batch_size : Z) (random_state : ref)
    (experiments : Experiments) (criterion : string) : M Experiment_table :=
  (initial_design <- LatinDesigner domain random_state batch_size criterion ;;
   initial_experiments <- mapM (run experiments) initial_design ;;
   lift (let? (conv, de) := columns initial_experiments in
         let? zeros := np_full batch_size 0 in
         let? table := DataSet_of_columns conv de initial_design zeros in
         set_index table (arange 0 batch_size))%result)%M.

(** One iteration of the loop of [run_optimization], for loop index [i].
    [previous_experiments] is rebound by the last statement only. *)
Definition round (experiments : Experiments) (batch_size : Z)
    (normalize_inputs normalize_outputs : bool) (i : Z) (st : LoopState)
  : M LoopState :=
  let '(proposal, tsemo) :=
    TSEMO_generate_experiments (ls_tsemo st) (ls_previous_experiments st)
      batch_size normalize_inputs normalize_outputs in
  ('(design, hv_imp) <- lift proposal ;;
   lengthscales <- lift (set_row (ls_lengthscales st) (Z.to_nat i)
                                 (TSEMO_lengthscales tsemo)) ;;
   log_likelihoods <- lift (set_row (ls_log_likelihoods st) (Z.to_nat i)
                                    (TSEMO_log_likelihoods tsemo)) ;;
   hv_improvements <- lift (set_row (ls_hv_improvements st) (Z.to_nat i)
                                    hv_imp) ;;
   loo <- lift (TSEMO_loo_errors tsemo) ;;
   loo_errors <- lift (set_row (ls_loo_errors st) (Z.to_nat i) loo) ;;
   new_experiments <- mapM (run experiments) design ;;
   new_table <-
     lift (let? (conv, de) := columns new_experiments in
           let? tags := np_full batch_size (i + 1) in
           let? table := DataSet_of_columns conv de design tags in
           set_index table (arange (batch_size * (i + 1))
                                   (batch_size * (i + 2))))%result ;;
   ret (mkLoopState tsemo (ls_previous_experiments st ++ new_table)
                    lengthscales log_likelihoods loo_errors
                    hv_improvements))%M.

(** The [for] loop over the indices [rounds]. *)
Fixpoint run_loop (experiments : Experiments) (batch_size : Z)
    (normalize_inputs normalize_outputs : bool) (rounds : list Z)
    (st : LoopState) (h : Heap) : outcome * Heap :=
  match rounds with
  | [] => (Completed st, h)
  | i :: rounds' =>
      match round experiments batch_size normalize_inputs
                  normalize_outputs i st h with
      | (Ok st', h') =>
          run_loop experiments batch_size normalize_inputs
                   normalize_outputs rounds' st' h'
      | (Raise e, h') => (Aborted e (ls_previous_experiments st), h')
      end
  end.

(** The storage arrays and the loop, up to the [return]. *)
Definition run_optimization_loop (tsemo : TSEMO)
    (initial_experiments : Experiment_table) (batch_size num_batches : Z)
    (num_components : Z) (experiments : Experiments)
    (normalize_inputs normalize_outputs : bool) (h : Heap)
  : outcome * Heap :=
  let storage :=
    (let? row := np_zeros num_components [zero; zero] in
     let? lengthscales := np_zeros (num_batches - 1) row in
     let? log_likelihoods := np_zeros (num_batches - 1) [zero; zero] in
     let? loo_errors := np_zeros (num_batches - 1) [zero; zero] in
     let? hv_improvements := np_zeros (num_batches - 1) zero in
     Ok (mkLoopState tsemo initial_experiments lengthscales
                     log_likelihoods loo_errors hv_improvements))%result in
  match storage with
  | Raise e => (Aborted e initial_experiments, h)
  | Ok st =>
      run_loop experiments batch_size normalize_inputs normalize_outputs
               (zrange (num_batches - 1)) st h
  end.

Definition run_optimization (tsemo : TSEMO)
    (initial_experiments : Experiment_table) (solvent_ds : pyobj)
    (batch_size num_batches : Z) (num_components : Z) (random_state : ref)
    (experiments : Experiments)
    (normalize_inputs normalize_outputs : bool)
  : M optimization_results :=
  fun h =>
    match run_optimization_loop tsemo initial_experiments batch_size
            num_batches num_components experiments normalize_inputs
            normalize_outputs h with
    | (Completed st, h') =>
        (Ok (mk_optimization_results
               (ls_previous_experiments st) (ls_lengthscales st)
               (ls_log_likelihoods st) (ls_loo_errors st)
               (ls_hv_improvements st)), h')
    | (Aborted e _, h') => (Raise e, h')
    end.

End Driver.

(** ** The entry points *)

Module constants.
Definition RANDOM_SEED : Z := 1000.
Definition NUM_BATCHES : Z := 4.
Definition BATCH_SIZE : Z := 8.
Definition NUM_COMPONENTS : Z := 3.
Definition NUM_REPEATS : Z := 50.
End constants.

(** The keyword arguments [descriptors_optimization] looks up. *)
Record kwargs : Type := mk_kwargs {
  kw_batch_size : option Z;
  kw_num_batches : option Z;
  kw_num_components : option Z;
  kw_num_initial_experiments : option Z;
  kw_random_seed : option Z;
  kw_normalize_inputs : option bool;
  kw_normalize_outputs : option bool;
  kw_design_criterion : option string
}.

Definition no_kwargs : kwargs :=
  mk_kwargs None None None None None None None None.

(** [kwargs.get(key, default)] *)
Definition get {A} (v : option A) (default : A) : A :=
  match v with Some a => a | None => default end.

Section EntryPoints.

Context `{Externals}.

(** [np.random.RandomState(seed)]: a new object in the heap. *)
Definition RandomState_new (seed : Z) : M ref :=
  fun h =>
    if ((seed <? 0) || (2 ^ 32 <=? seed))%bool
    then (Raise (ValueError "Seed must be between 0 and 2**32 - 1"), h)
    else let r := next_ref h in
         (Ok r, {| cell := fun r' => if Nat.eqb r' r then mt19937 seed
                                     else cell h r';
                   next_ref := S r |}).

(** [descriptors_optimization] from the construction of the oracle on,
    for the object bound to [solvent_pcs_ds].  [run_optimization] is
    called without the normalization flags, so it runs with its own
    defaults.  When [save_to_disk] is set, the metadata dictionary reads
    the names [d] and [i], which the function does not bind. *)
Definition descriptors_optimization_from (solvent_pcs_ds : pyobj)
    (random_state : ref) (save_to_disk : bool) (kw : kwargs)
  : M optimization_results :=
  let batch_size := get (kw_batch_size kw) constants.BATCH_SIZE in
  let num_batches := get (kw_num_batches kw) constants.NUM_BATCHES in
  let num_components := get (kw_num_components kw) constants.NUM_COMPONENTS in
  let num_initial_experiments :=
    get (kw_num_initial_experiments kw) batch_size in
  let design_criterion := get (kw_design_criterion kw) "center"%string in
  (exp <- Experiments_init solvent_pcs_ds (Some random_state) None true ;;
   let domain := create_domain solvent_pcs_ds in
   let tsemo := optimization_setup domain in
   initial_experiments <-
     generate_initial_experiment_data domain solvent_pcs_ds
       num_initial_experiments random_state exp design_criterion ;;
   result <- run_optimization tsemo initial_experiments solvent_pcs_ds
               batch_size num_batches num_components random_state exp
               false false ;;
   if save_to_disk
   then raise (NameError "name 'd' is not defined")
   else ret result)%M.

Definition descriptors_optimization (save_to_disk : bool) (kw : kwargs)
  : M optimization_results :=
  let num_components := get (kw_num_components kw) constants.NUM_COMPONENTS in
  let random_seed := get (kw_random_seed kw) constants.RANDOM_SEED in
  (random_state <- RandomState_new random_seed ;;
   solvent_pcs_ds <- lift (create_pcs_ds num_components) ;;
   descriptors_optimization_from solvent_pcs_ds random_state save_to_disk
                                 kw)%M.

(** What [SolventEvolutionaryOptimization.__init__] stores. *)
Record SolventEvolutionaryOptimization : Type := mkSEO {
  seo_batch_size : Z;
  seo_num_batches : Z;
  seo_solvent_ds : pyobj;
  seo_cas_numbers : list cas;
  seo_prng_seed : Z;
  seo_bounder : list Z;
  seo_domain : Domain;
  seo_initial_experiments : list (float * float);
  seo_solvents_evaluated : list cas
}.

(** [SolventEvolutionaryOptimization.__init__].  The call of
    [generate_initial_experiment_data] passes four arguments to a function
    with five required parameters; its arguments are evaluated first. *)
Definition SolventEvolutionaryOptimization_init (batch_size num_batches : Z)
    (seed : Z) (solvent_ds : option pyobj)
  : M SolventEvolutionaryOptimization :=
  (solvent_ds <- match solvent_ds with
                 | Some ds => ret ds
                 | None => lift (create_pcs_ds 3)
                 end ;;
   cas_numbers <- lift (obj_index_values solvent_ds) ;;
   let bounder := zrange (Z.of_nat (List.length cas_numbers)) in
   let domain := create_domain solvent_ds in
   random_state <- RandomState_new seed ;;
   raise (TypeError
     "generate_initial_experiment_data() missing 1 required positional argument: 'experiments'"))%M.

End EntryPoints.


(** ** Vocabulary of the properties *)

Section Vocabulary.

Context `{Externals}.

(** The arrays of diagnostics have the same lengths in two loop states. *)
Definition same_storage (st st' : LoopState) : Prop :=
  List.length (ls_lengthscales st') = List.length (ls_lengthscales st)
  /\ List.length (ls_log_likelihoods st')
     = List.length (ls_log_likelihoods st)
  /\ List.length (ls_loo_errors st') = List.length (ls_loo_errors st)
  /\ List.length (ls_hv_improvements st')
     = List.length (ls_hv_improvements st).









End Vocabulary.

(** ** A small instance of the libraries, to run the model

    Two solvents with three components each; an integrator that returns the
    same concentrations at every step; a designer and a strategy that
    propose the first solvent [n] times; random states that draw zeros. *)

Module Toy.

Definition acetone : cas := "67-64-1"%string.
Definition toluene : cas := "108-88-3"%string.

Definition solvents : DataSet :=
  [ (acetone, [of_Z 1; of_Z 2; of_Z 3]);
    (toluene, [of_Z (-1); of_Z 0; of_Z 2]) ].

Definition concentrations : list float := [of_Q (1 # 10); of_Q (1 # 20)].

Definition propose (n : Z) : list cas := repeat acetone (Z.to_nat n).

Definition make (converges : bool) : Externals := {|
  np_exp := fun x => x;
  np_log := fun x => x;
  mt19937 := fun _ _ => zero;
  Vode := unit;
  vode_set_initial_value := fun _ _ _ => tt;
  vode_integrate := fun _ r _ => Ok (r, concentrations);
  vode_successful := fun _ => converges;
  LatinDesigner_generate_experiments :=
    fun _ n _ rs => (Ok (propose n), rs);
  TSEMO := nat;
  TSEMO_new := fun _ => 0%nat;
  TSEMO_generate_experiments :=
    fun t _ n _ _ => (Ok (propose n, of_Z (Z.of_nat t)), S t);
  TSEMO_lengthscales := fun _ => [[zero; zero]; [zero; zero]; [zero; zero]];
  TSEMO_log_likelihoods := fun _ => [zero; zero];
  TSEMO_loo_errors := fun _ => Ok [zero; zero];
  read_solvent_tables := Ok (solvents, solvents);
  standardize := fun ds => map snd ds;
  PCA_fit_transform :=
    fun k _ final => Ok ([], map (firstn (Z.to_nat k)) final)
|}.

Definition externals : Externals := make true.
Definition diverging : Externals := make false.

(** A heap whose random states all draw [draw]. *)
Definition heap (draw : float) : Heap :=
  {| cell := fun _ _ => draw; next_ref := 1%nat |}.

(** The oracle over [solvents], not pre-calculated, drawing from the
    default random state. *)
Definition oracle : Experiments :=
  mkExperiments solvents default_initial_concentrations default_random_state
                false (index_values solvents) None.

(** The same oracle with its table of results calculated in advance. *)
Definition cached : Experiments :=
  mkExperiments solvents default_initial_concentrations default_random_state
                true (index_values solvents)
                (Some [(of_Z 20, of_Q (200 # 3)); (of_Z 20, of_Q (200 # 3))]).

(** One row of a seed batch, and the loop variables of a run of four
    batches with the integrator that never converges. *)
Definition initial_table : Experiment_table :=
  [mkRow 0 (of_Z 20) (of_Q (200 # 3)) toluene 0].

Definition storage : @LoopState diverging :=
  @mkLoopState diverging 0%nat initial_table
    (repeat [[zero; zero]; [zero; zero]; [zero; zero]] 3)
    (repeat [zero; zero] 3) (repeat [zero; zero] 3) (repeat zero 3).

End Toy.


(** * The rest of the module *)

(** ** The full factorial design: [fullfact] *)

(** [np.prod] of a list of integers. *)
Definition np_prod (levels : list Z) : Z := fold_right Z.mul 1 levels.

(** [l * k] on a list: [k] copies of [l], none when [k] is not positive. *)
Definition list_times {A} (l : list A) (k : Z) : list A :=
  List.concat (repeat l (Z.to_nat k)).

(** The assignment to a column of [nb_lines] entries: the shapes must agree,
    up to the broadcast of a single value. *)
Definition assign_column (nb_lines : Z) (rng : list Z) : result (list Z) :=
  if Z.of_nat (List.length rng) =? nb_lines then Ok rng
  else match rng with
       | [v] => Ok (repeat v (Z.to_nat nb_lines))
       | _ => Raise (ValueError "could not broadcast input array")
       end.

(** The loop of [fullfact] from factor [i] on, with the values
    [level_repeat] and [range_repeat] have when it gets there: the columns
    it writes.  The floor division is numpy's (a division by zero gives
    zero). *)
Fixpoint fullfact_columns (levels : list Z) (nb_lines : Z)
    (level_repeat range_repeat : Z) : result (list (list Z)) :=
  match levels with
  | [] => Ok []
  | l :: levels' =>
      let range_repeat := range_repeat / l in
      let lvl := flat_map (fun j => list_times [j] level_repeat) (zrange l) in
      let rng := list_times lvl range_repeat in
      let level_repeat := level_repeat * l in
      (let? column := assign_column nb_lines rng in
       let? columns := fullfact_columns levels' nb_lines level_repeat
                                        range_repeat in
       Ok (column :: columns))%result
  end.

(** [fullfact]: the rows of the matrix [H].  Its entries are the level
    numbers, which numpy stores as doubles.  For an empty list the product
    is the double [1.0], which [np.zeros] refuses as a dimension. *)
Definition fullfact (levels : list Z) : result (list (list Z)) :=
  match levels with
  | [] => Raise (TypeError
            "'numpy.float64' object cannot be interpreted as an integer")
  | _ =>
      let nb_lines := np_prod levels in
      if nb_lines <? 0
      then Raise (ValueError "negative dimensions are not allowed")
      else
        (let? columns := fullfact_columns levels nb_lines 1 nb_lines in
         Ok (map (fun r => map (fun column => nth r column 0) columns)
                 (seq 0 (Z.to_nat nb_lines))))%result
  end.

(** Row [r] of a full factorial design, counted in the mixed radix of the
    levels, the first factor varying fastest. *)
Fixpoint mixed_radix (levels : list Z) (r : Z) : list Z :=
  match levels with
  | [] => []
  | l :: levels' => r mod l :: mixed_radix levels' (r / l)
  end.

(** ** The methods of [SolventEvolutionaryOptimization] *)

(** Python's [Random]: the raw numbers it will still produce. *)
Definition PyRandom : Type := nat -> Z.

(** [random.randint(a, b)]: [a] plus a number below the width [b + 1 - a],
    here the next raw number reduced modulo the width; an empty range
    raises. *)
Definition randint (a b : Z) (random : PyRandom) : result Z * PyRandom :=
  let width := b + 1 - a in
  if width <=? 0
  then (Raise (ValueError "empty range for randrange()"), random)
  else (Ok (a + random 0%nat mod width), fun k => random (S k)).

(** Subscription of an array or a list by an integer: a negative index
    counts from the end. *)
Definition item {A} (l : list A) (k : Z) : result A :=
  let n := Z.of_nat (List.length l) in
  if ((0 <=? k) && (k <? n))%bool then getitem l (Z.to_nat k)
  else if ((- n <=? k) && (k <? 0))%bool then getitem l (Z.to_nat (n + k))
  else Raise (IndexError "index is out of bounds").

(** The module defines no [experiment]: the name the evaluator calls is
    unbound. *)
Definition experiment (c : cas) (solvent_ds : pyobj)
  : result (float * float) :=
  Raise (NameError "name 'experiment' is not defined").

(** [_generator]: one candidate, a list of one index. *)
Definition _generator (self : SolventEvolutionaryOptimization)
    (random : PyRandom) : result (list Z) * PyRandom :=
  let '(k, random') :=
    randint 1 (Z.of_nat (List.length (seo_cas_numbers self))) random in
  ((let? k := k in Ok [k])%result, random').

(** The loop of [_evaluator], with the fitness list and the list
    [solvents_evaluated] as they stand. *)
Fixpoint _evaluator_loop (self : SolventEvolutionaryOptimization)
    (candidates : list (list Z)) (fitness : list (float * float))
    (solvents_evaluated : list cas)
  : result (list (float * float) * list cas) :=
  match candidates with
  | [] => Ok (fitness, solvents_evaluated)
  | index :: candidates' =>
      (let? k := getitem index 0 in
       let? c := item (seo_cas_numbers self) k in
       let? (conversion, de) := experiment c (seo_solvent_ds self) in
       _evaluator_loop self candidates' (fitness ++ [(conversion, de)])
                       (solvents_evaluated ++ [c]))%result
  end.

(** [_evaluator]: the fitness of the candidates, and the updated list of
    evaluated solvents. *)
Definition _evaluator (self : SolventEvolutionaryOptimization)
    (candidates : list (list Z))
  : result (list (float * float) * list cas) :=
  _evaluator_loop self candidates [] (seo_solvents_evaluated self).

(** ** The sweep over the parameters: [repeat_test] *)

(** One dictionary of the list [designs]. *)
Record design : Type := mk_design {
  d_normalize_inputs : bool;
  d_normalize_outputs : bool;
  d_batch_size : Z;
  d_design_criterion : string;
  d_num_initial_experiments : Z
}.

Module params.
Definition normalize_inputs : list bool := [false; true].
Definition normalize_outputs : list bool := [false; true].
Definition batch_size : list Z := [4; 8].
Definition design_criterion : list string := ["center"; "maximin"]%string.
Definition num_initial_experiments : list Z := [4; 8; 16].
End params.

(** The levels, in the order of the keys of [params]. *)
Definition levels : list Z :=
  [ Z.of_nat (List.length params.normalize_inputs);
    Z.of_nat (List.length params.normalize_outputs);
    Z.of_nat (List.length params.batch_size);
    Z.of_nat (List.length params.design_criterion);
    Z.of_nat (List.length params.num_initial_experiments) ].

(** The dictionary built from one row of the design matrix.  The rows of
    [fullfact levels] have one entry per key; a shorter row would leave keys
    out, which shows as a [KeyError] when they are read. *)
Definition design_of_row (d : list Z) : result design :=
  match d with
  | i1 :: i2 :: i3 :: i4 :: i5 :: _ =>
      (let? ni := item params.normalize_inputs i1 in
       let? no := item params.normalize_outputs i2 in
       let? b := item params.batch_size i3 in
       let? crit := item params.design_criterion i4 in
       let? init := item params.num_initial_experiments i5 in
       Ok (mk_design ni no b crit init))%result
  | _ => Raise (KeyError "num_initial_experiments")
  end.

(** A list comprehension of a computation that can raise. *)
Fixpoint map_result {A B} (f : A -> result B) (l : list A)
  : result (list B) :=
  match l with
  | [] => Ok []
  | a :: l' => (let? b := f a in
                let? bs := map_result f l' in Ok (b :: bs))%result
  end.

(** A [for] loop over [l]. *)
Fixpoint for_each {A} (l : list A) (body : A -> M unit) : M unit :=
  match l with
  | [] => ret tt
  | a :: l' => (_ <- body a ;; for_each l' body)%M
  end.

Section Sweep.

Context `{Externals}.

(** The keyword arguments of the call of [descriptors_optimization] for
    design [d] and repeat [i].  The number of initial experiments is passed
    under the key [num_intial_experiments], which
    [descriptors_optimization] does not look up. *)
Definition sweep_kwargs (d : design) (num_batches : Z) (i : Z) : kwargs :=
  mk_kwargs (Some (d_batch_size d)) (Some num_batches)
            (Some constants.NUM_COMPONENTS) None
            (Some (constants.RANDOM_SEED + 100 * i))
            (Some (d_normalize_inputs d)) (Some (d_normalize_outputs d))
            (Some (d_design_criterion d)).

(** The number of batches [repeat_test] computes for a design. *)
Definition sweep_num_batches (d : design) : Z :=
  (40 - d_num_initial_experiments d) / d_batch_size d + 1.

(** The body of the loop over the designs.  What follows a run that
    returned (the stores into the summary arrays and the output files) has
    no effect on the model. *)
Definition repeat_test_design (num_repeats : Z) (d : design) : M unit :=
  let num_components := constants.NUM_COMPONENTS in
  let num_batches := sweep_num_batches d in
  (_ <- lift (let? row := np_zeros num_components [zero; zero] in
              let? block := np_zeros (num_batches - 1) row in
              np_zeros num_repeats block)%result ;;
   for_each (zrange num_repeats)
     (fun i =>
        res <- descriptors_optimization false (sweep_kwargs d num_batches i) ;;
        ret tt))%M.

Definition repeat_test (num_repeats : Z) : M unit :=
  (doe <- lift (fullfact levels) ;;
   designs <- lift (map_result design_of_row doe) ;;
   for_each designs (repeat_test_design num_repeats))%M.

End Sweep.

(** The toy libraries with other tables of descriptors. *)
Definition with_tables (E : Externals) (tables : result (DataSet * DataSet))
  : Externals := {|
  np_exp := @np_exp E;
  np_log := @np_log E;
  mt19937 := @mt19937 E;
  Vode := @Vode E;
  vode_set_initial_value := @vode_set_initial_value E;
  vode_integrate := @vode_integrate E;
  vode_successful := @vode_successful E;
  LatinDesigner_generate_experiments := @LatinDesigner_generate_experiments E;
  TSEMO := @TSEMO E;
  TSEMO_new := @TSEMO_new E;
  TSEMO_generate_experiments := @TSEMO_generate_experiments E;
  TSEMO_lengthscales := @TSEMO_lengthscales E;
  TSEMO_log_likelihoods := @TSEMO_log_likelihoods E;
  TSEMO_loo_errors := @TSEMO_loo_errors E;
  read_solvent_tables := tables;
  standardize := @standardize E;
  PCA_fit_transform := @PCA_fit_transform E
|}.

(** An evolutionary optimization object over the two toy solvents. *)
Definition toy_seo : SolventEvolutionaryOptimization :=
  mkSEO 8 4 (PyDataSet Toy.solvents) (index_values Toy.solvents) 1000
        [0; 1] (create_domain (PyDataSet Toy.solvents)) [] [].

(** Libraries whose designer proposes the given design, whatever the
    number of experiments asked for. *)
Definition with_designer (E : Externals) (design : list cas) : Externals := {|
  np_exp := @np_exp E;
  np_log := @np_log E;
  mt19937 := @mt19937 E;
  Vode := @Vode E;
  vode_set_initial_value := @vode_set_initial_value E;
  vode_integrate := @vode_integrate E;
  vode_successful := @vode_successful E;
  LatinDesigner_generate_experiments := fun _ _ _ rs => (Ok design, rs);
  TSEMO := @TSEMO E;
  TSEMO_new := @TSEMO_new E;
  TSEMO_generate_experiments := @TSEMO_generate_experiments E;
  TSEMO_lengthscales := @TSEMO_lengthscales E;
  TSEMO_log_likelihoods := @TSEMO_log_likelihoods E;
  TSEMO_loo_errors := @TSEMO_loo_errors E;
  read_solvent_tables := @read_solvent_tables E;
  standardize := @standardize E;
  PCA_fit_transform := @PCA_fit_transform E
|}.

(** * Properties *)

(** ** Arithmetic of the modelled doubles *)

Lemma le_Fin (x y : Q) : le (Fin x) (Fin y) <-> (x <= y)%Q.
Proof. unfold le; simpl. apply Qle_bool_iff. Qed.


Lemma not_le_NaN_l (a : float) : ~ le NaN a.
Proof. unfold le; simpl; discriminate. Qed.

(** ** The noise on the reaction time *)

Lemma noisy_rxn_time_Fin (t z : Q) :
  exists q, noisy_rxn_time (Fin t) (Fin z) = Fin q
            /\ (q == t + z * (1 # 100) * t)%Q.
Proof.
  eexists; split; [reflexivity|].
  rewrite !Qred_correct. reflexivity.
Qed.

Lemma deviation_Fin (t z : Q) :
  exists q, abs (noisy_rxn_time (Fin t) (Fin z) - Fin t)%float = Fin q
            /\ (q == Qabs z * ((1 # 100) * Qabs t))%Q.
Proof.
  eexists; split; [reflexivity|].
  rewrite !Qred_correct.
  setoid_replace (t + z * (1 # 100) * t + - t)%Q
    with (z * ((1 # 100) * t))%Q by ring.
  rewrite !Qabs_Qmult. reflexivity.
Qed.

(** C9 (as amended).  Every call of [_run] perturbs the reaction time by
    [draw * 0.01 * rxn_time], where [draw] is a standard-normal draw (the
    code has no switch for the noise).  For a positive reaction time the
    perturbed time is within 1% of the nominal one exactly when the draw
    lies in [-1, 1]. *)
Theorem noisy_rxn_time_within_one_percent (t z : Q) :
  (0 < t)%Q ->
  le (abs (noisy_rxn_time (Fin t) (Fin z) - Fin t)%float)
     (of_Q (1 # 100) * Fin t)%float
  <-> (Qabs z <= 1)%Q.
Proof.
  intros Ht.
  destruct (deviation_Fin t z) as [q [Hq Eq]]. rewrite Hq.
  change (of_Q (1 # 100) * Fin t)%float with (Fin (Qred ((1 # 100) * t))).
  rewrite le_Fin, Qred_correct, Eq.
  rewrite (Qabs_pos t) by lra.
  pose proof (Qabs_nonneg z) as Hz.
  set (a := Qabs z) in *. clearbody a.
  split; intros Hle; nra.
Qed.

Lemma noisy_rxn_time_within_one_percent_witness :
  (0 < 25200)%Q
  /\ (le (abs (noisy_rxn_time (Fin 25200) (Fin (1 # 2)) - Fin 25200)%float)
         (of_Q (1 # 100) * Fin 25200)%float
      <-> (Qabs (1 # 2) <= 1)%Q).
Proof.
  split; [reflexivity|].
  apply (noisy_rxn_time_within_one_percent 25200 (1 # 2)). reflexivity.
Defined.

(** C9 (as stated) fails: a draw of [2] moves the default reaction time of
    25200 to 25704, which is 2% away. *)
Lemma noisy_rxn_time_exceeds_one_percent :
  noisy_rxn_time default_rxn_time (of_Z 2) = of_Z 25704
  /\ ~ le (abs (noisy_rxn_time default_rxn_time (of_Z 2)
               - default_rxn_time)%float)
          (of_Q (1 # 100) * default_rxn_time)%float.
Proof.
  split; [reflexivity|]. vm_compute. discriminate.
Qed.

(** ** The time grid of the integration *)

Lemma zrange_length (n : Z) : List.length (zrange n) = Z.to_nat n.
Proof. unfold zrange. now rewrite length_map, length_seq. Qed.

Lemma set_last_length {A} (l : list A) (v : A) :
  l <> [] -> List.length (set_last l v) = List.length l.
Proof.
  intros Hl. unfold set_last.
  destruct (exists_last Hl) as [l' [a ->]].
  rewrite removelast_last, !length_app. reflexivity.
Qed.

Lemma set_last_last {A} (l : list A) (v d : A) : last (set_last l v) d = v.
Proof. unfold set_last. apply last_last. Qed.

Lemma linspace_length (start stop : float) (num : Z) :
  0 <= num ->
  exists l, linspace start stop num = Ok l
            /\ List.length l = Z.to_nat num
            /\ (2 <= num -> last l NaN = stop).
Proof.
  intros Hn. unfold linspace.
  destruct (Z.ltb_spec num 0) as [|_]; [lia|].
  destruct (Z.ltb_spec 1 num) as [H1|H1].
  - eexists; split; [reflexivity|]. split.
    + rewrite set_last_length.
      * now rewrite !length_map, zrange_length.
      * intros E. apply (f_equal (@List.length float)) in E.
        rewrite !length_map, zrange_length in E. simpl in E. lia.
    + intros _. apply set_last_last.
  - eexists; split; [reflexivity|]. split.
    + now rewrite !length_map, zrange_length.
    + lia.
Qed.

Lemma to_int_quotient (t s : Q) :
  (0 <= t)%Q -> (0 < s)%Q ->
  to_int ((Fin t - of_Z 0) / Fin s)%float = Ok (Qfloor (t / s)).
Proof.
  intros Ht Hs. unfold sub, of_Z, neg, add, div.
  destruct (Qcompare_spec s 0) as [E|E|E]; try lra.
  unfold to_int. f_equal.
  set (q := Qred (Qred (t + Qred (- inject_Z 0)) / s)).
  assert (Eq : (q == t / s)%Q).
  { unfold q. rewrite !Qred_correct.
    change (- inject_Z 0)%Q with 0%Q. now rewrite Qplus_0_r. }
  rewrite <- (Qfloor_comp _ _ Eq).
  assert (Hq : (0 <= q)%Q).
  { rewrite Eq. apply Qle_shift_div_l; [assumption|]. lra. }
  unfold Qfloor. destruct q as [n d]. simpl.
  unfold Qle in Hq. simpl in Hq.
  apply Z.quot_div_nonneg; lia.
Qed.

(** C8 (as amended).  For a reaction time [t >= 0] and a step size [s > 0]
    the integration runs over a grid of [floor(t / s)] points, the last of
    which is [t] when there are at least two, so it makes
    [floor(t / s) - 1] calls of the integrator.  The parameter whose default
    is 200 is the step size, not the number of steps. *)
Theorem time_grid_size (t s : Q) :
  (0 <= t)%Q -> (0 < s)%Q ->
  exists trange,
    time_grid (Fin t) (Fin s) = Ok trange
    /\ Z.of_nat (List.length trange) = Qfloor (t / s)
    /\ step_count trange = Z.to_nat (Qfloor (t / s) - 1)
    /\ (2 <= Qfloor (t / s) -> last trange NaN = Fin t).
Proof.
  intros Ht Hs. unfold time_grid.
  rewrite to_int_quotient by assumption. simpl rbind.
  assert (Hn : 0 <= Qfloor (t / s)).
  { change 0 with (Qfloor 0). apply Qfloor_resp_le.
    apply Qle_shift_div_l; [assumption|]. lra. }
  destruct (linspace_length (of_Z 0) (Fin t) _ Hn) as [l [Hl [Hlen Hlast]]].
  exists l. repeat split; try assumption.
  - rewrite Hlen. lia.
  - unfold step_count. destruct l; simpl in *; lia.
Qed.

Lemma time_grid_size_witness :
  exists trange,
    time_grid default_rxn_time default_step_size = Ok trange
    /\ Z.of_nat (List.length trange) = 126
    /\ step_count trange = 125%nat
    /\ last trange NaN = default_rxn_time.
Proof.
  destruct (time_grid_size 25200 200) as [l [Hl [Hn [Hc Hlast]]]];
    [discriminate | reflexivity |].
  exists l. repeat split; [exact Hl | exact Hn | exact Hc |].
  apply Hlast. discriminate.
Defined.

(** C8 (as stated) fails: with the default parameters and no noise the grid
    has 126 points, hence 125 integration steps and not 200; and the number
    of steps is not fixed, a draw of [1] giving one more. *)
Lemma default_step_count_is_not_200 :
  (exists trange,
     time_grid (noisy_rxn_time default_rxn_time zero) default_step_size
       = Ok trange
     /\ step_count trange = 125%nat /\ step_count trange <> 200%nat)
  /\ (exists trange,
        time_grid (noisy_rxn_time default_rxn_time (of_Z 1)) default_step_size
          = Ok trange
        /\ step_count trange = 126%nat).
Proof.
  split; eexists; (split; [vm_compute; reflexivity|]).
  - split; [reflexivity | discriminate].
  - reflexivity.
Qed.

(** ** The outputs of the oracle *)

Lemma rbind_Ok {A B} (r : result A) (k : A -> result B) (b : B) :
  rbind r k = Ok b -> exists a, r = Ok a /\ k a = Ok b.
Proof. destruct r as [a|e]; simpl; [eauto | discriminate]. Qed.

Lemma getlast_In {A} (l : list A) (a : A) : getlast l = Ok a -> In a l.
Proof.
  unfold getlast. destruct (rev l) as [|b l'] eqn:E; [discriminate|].
  intros [= ->]. apply in_rev. rewrite E. now left.
Qed.

Lemma getlast_map {A B} (f : A -> B) (l : list A) (a : A) :
  getlast l = Ok a -> getlast (map f l) = Ok (f a).
Proof.
  unfold getlast. rewrite <- map_rev.
  destruct (rev l); simpl; [discriminate | now intros [= ->]].
Qed.

Lemma combine_map_same {A B C} (f : A -> B) (g : A -> C) (l : list A) :
  combine (map f l) (map g l) = map (fun a => (f a, g a)) l.
Proof. induction l; simpl; [reflexivity | now rewrite IHl]. Qed.

Section OracleProperties.

Context `{Externals}.

Lemma assign_row_length (w : nat) (y row : list float) :
  assign_row w y = Ok row -> List.length row = w.
Proof.
  unfold assign_row. destruct (Nat.eqb_spec (List.length y) w) as [E|_].
  - now intros [= <-].
  - destruct y as [|v [|? ?]]; try discriminate.
    intros [= <-]. apply repeat_length.
Qed.

Lemma integrate_steps_width (self : Experiments) (c : cas)
    (targets : list float) :
  forall r rows,
    integrate_steps self c r targets = Ok rows ->
    Forall (fun row => List.length row
                       = List.length (initial_concentrations self)) rows.
Proof.
  induction targets as [|ti ts IH]; simpl; intros r rows Hr.
  - injection Hr as <-. constructor.
  - apply rbind_Ok in Hr as [[r' y] [_ Hr]].
    apply rbind_Ok in Hr as [row [Hrow Hr]].
    destruct (vode_successful r'); [|discriminate].
    apply rbind_Ok in Hr as [rows' [Hrows Hr]]. injection Hr as <-.
    constructor; [now apply assign_row_length in Hrow | eauto].
Qed.

Lemma _integrate_rate_width (self : Experiments) (c : cas) (t s : float)
    (x : list (list float)) :
  _integrate_rate self c t s = Ok x ->
  Forall (fun row => List.length row
                     = List.length (initial_concentrations self)) x.
Proof.
  unfold _integrate_rate. intros Hx.
  apply rbind_Ok in Hx as [trange [_ Hx]].
  apply rbind_Ok in Hx as [rows [Hrows Hx]]. injection Hx as <-.
  destruct trange; constructor.
  - apply repeat_length.
  - eapply integrate_steps_width; eassumption.
Qed.

Lemma column_rectangular (x : list (list float)) (w j : nat) :
  Forall (fun row => List.length row = w) x -> (j < w)%nat ->
  column x j = Ok (map (fun r => nth j r zero) x).
Proof.
  intros Hx Hj. destruct x as [|row x]; [reflexivity|].
  unfold column. inversion Hx as [|? ? Hrow _]; subst.
  destruct (Nat.ltb_spec j (List.length row)); [reflexivity | lia].
Qed.

(** What [_run] returns, from the last row of the integrated
    concentrations. *)
Lemma _run_last_row (self : Experiments) (c : cas) (rxn_time step_size : float)
    (h : Heap) (x : list (list float)) (p1 p2 : float) (rest : list float) :
  _integrate_rate self c
    (noisy_rxn_time rxn_time (cell h (random_state self) 0%nat)) step_size
    = Ok x ->
  getlast x = Ok (p1 :: p2 :: rest) ->
  exists m,
    np_min (initial_concentrations self) = Ok m
    /\ fst (_run self c rxn_time step_size h)
       = Ok ((p1 / m * of_Z 100)%float, (p1 / (p1 + p2) * of_Z 100)%float).
Proof.
  intros Hx Hlast.
  pose proof (_integrate_rate_width _ _ _ _ _ Hx) as Hw.
  assert (Hlen : (2 <= List.length (initial_concentrations self))%nat).
  { rewrite Forall_forall in Hw. rewrite <- (Hw _ (getlast_In _ _ Hlast)).
    simpl. lia. }
  destruct (initial_concentrations self) as [|c0 ics] eqn:Eic;
    [simpl in Hlen; lia|].
  exists (fold_left min2 ics c0). split; [reflexivity|].
  unfold _run, _run_series, bind, randn, lift.
  rewrite Hx. simpl rbind.
  rewrite (column_rectangular x _ 0 Hw) by lia.
  rewrite (column_rectangular x _ 1 Hw) by lia.
  rewrite Eic. simpl rbind.
  rewrite combine_map_same, !map_map.
  rewrite (getlast_map _ x _ Hlast). simpl rbind.
  rewrite (getlast_map _ x _ Hlast). reflexivity.
Qed.

(** C5.  When the integration returns the concentrations [x], whose last
    row starts with the final concentrations [p1] and [p2] of the two
    products, [_run] returns
    [conversion = p1 / min(initial_concentrations) * 100] and
    [de = p1 / (p1 + p2) * 100]. *)
Theorem oracle_outputs (self : Experiments) (c : cas)
    (rxn_time step_size : float) (h : Heap) (x : list (list float))
    (p1 p2 : float) (rest : list float) :
  _integrate_rate self c
    (noisy_rxn_time rxn_time (cell h (random_state self) 0%nat)) step_size
    = Ok x ->
  getlast x = Ok (p1 :: p2 :: rest) ->
  exists m,
    np_min (initial_concentrations self) = Ok m
    /\ fst (_run self c rxn_time step_size h)
       = Ok ((p1 / m * of_Z 100)%float, (p1 / (p1 + p2) * of_Z 100)%float).
Proof. apply _run_last_row. Qed.


End OracleProperties.

Lemma oracle_outputs_witness :
  fst (@_run Toy.externals Toy.oracle Toy.acetone (of_Z 600)
             default_step_size (Toy.heap zero))
  = Ok (of_Z 20, of_Q (200 # 3)).
Proof.
  edestruct (@oracle_outputs Toy.externals Toy.oracle Toy.acetone (of_Z 600)
               default_step_size (Toy.heap zero)) as [m [Hm Hrun]];
    [vm_compute; reflexivity | vm_compute; reflexivity |].
  vm_compute in Hm. injection Hm as <-. exact Hrun.
Defined.



(** ** The guard of the descriptor data *)

Lemma check_all_spec (values : list (list float)) :
  check_all values = true <-> Forall (Forall (fun v => v = NaN)) values.
Proof.
  unfold check_all. rewrite forallb_forall, Forall_forall.
  split; intros Hv row Hrow; specialize (Hv row Hrow).
  - rewrite forallb_forall in Hv. rewrite Forall_forall.
    intros v Hin. specialize (Hv v Hin). now destruct v.
  - rewrite Forall_forall in Hv. rewrite forallb_forall.
    intros v Hin. now rewrite (Hv v Hin).
Qed.

(** The guard raises exactly when every entry is a nan (an empty table
    included). *)
Lemma descriptor_guard_raises (values : list (list float)) :
  descriptor_guard values = Raise AssertionError
  <-> Forall (Forall (fun v => v = NaN)) values.
Proof.
  rewrite <- check_all_spec. unfold descriptor_guard.
  destruct (check_all values); simpl; split; congruence.
Qed.


(** ** The entry points never complete *)

Section EntryPointProperties.

Context `{Externals}.

Lemma create_pcs_ds_tuple (k : Z) (o : pyobj) :
  create_pcs_ds k = Ok o -> exists ds pca, o = PyTuple ds pca.
Proof.
  unfold create_pcs_ds. intros Ho.
  apply rbind_Ok in Ho as [[full final] [_ Ho]].
  apply rbind_Ok in Ho as [[] [_ Ho]].
  apply rbind_Ok in Ho as [[pca pcs] [_ Ho]].
  apply rbind_Ok in Ho as [pc_df [_ Ho]].
  injection Ho as <-. eauto.
Qed.

Lemma Experiments_init_tuple (ds : DataSet) (pca : PCA) (rs : option ref)
    (ic : option (list float)) (pre : bool) (h : Heap) :
  Experiments_init (PyTuple ds pca) rs ic pre h
  = (Raise tuple_has_no_index_values, h).
Proof. reflexivity. Qed.

Lemma RandomState_new_cases (seed : Z) (h : Heap) :
  (exists e, RandomState_new seed h = (Raise e, h))
  \/ (0 <= seed < 2 ^ 32
      /\ exists h', RandomState_new seed h = (Ok (next_ref h), h')).
Proof.
  unfold RandomState_new.
  destruct (Z.ltb_spec seed 0); destruct (Z.leb_spec (2 ^ 32) seed);
    simpl; eauto.
Qed.

(** C10.  [create_pcs_ds] returns a pair, and both entry points bind it
    where a dataset is expected: whenever it returns,
    [descriptors_optimization] and [SolventEvolutionaryOptimization]
    (called without a dataset) raise the attribute error of the pair, the
    former in the constructor of the oracle.  No call of either entry
    point returns. *)
Theorem entry_points_never_return :
  (forall k o, create_pcs_ds k = Ok o -> exists ds pca, o = PyTuple ds pca)
  /\ (forall save kw h,
        exists e h', descriptors_optimization save kw h = (Raise e, h'))
  /\ (forall save kw h o,
        0 <= get (kw_random_seed kw) constants.RANDOM_SEED < 2 ^ 32 ->
        create_pcs_ds (get (kw_num_components kw) constants.NUM_COMPONENTS)
          = Ok o ->
        exists h', descriptors_optimization save kw h
                   = (Raise tuple_has_no_index_values, h'))
  /\ (forall batch_size num_batches seed solvent_ds h,
        exists e h',
          SolventEvolutionaryOptimization_init batch_size num_batches seed
            solvent_ds h = (Raise e, h'))
  /\ (forall batch_size num_batches seed h o,
        create_pcs_ds 3 = Ok o ->
        SolventEvolutionaryOptimization_init batch_size num_batches seed
          None h = (Raise tuple_has_no_index_values, h)).
Proof.
  split; [exact create_pcs_ds_tuple|].
  assert (D : forall save kw h,
             (exists e h', descriptors_optimization save kw h = (Raise e, h'))
             /\ (forall o,
                   0 <= get (kw_random_seed kw) constants.RANDOM_SEED < 2 ^ 32 ->
                   create_pcs_ds
                     (get (kw_num_components kw) constants.NUM_COMPONENTS)
                     = Ok o ->
                   exists h', descriptors_optimization save kw h
                              = (Raise tuple_has_no_index_values, h'))).
  { intros save kw h. unfold descriptors_optimization, bind.
    destruct (RandomState_new_cases
                (get (kw_random_seed kw) constants.RANDOM_SEED) h)
      as [[e He]|[Hs [h' Hh]]].
    - rewrite He. split; [eauto|]. intros o Hseed _.
      unfold RandomState_new in He.
      destruct (Z.ltb_spec (get (kw_random_seed kw) constants.RANDOM_SEED) 0);
        [lia|].
      destruct (Z.leb_spec (2 ^ 32)
                  (get (kw_random_seed kw) constants.RANDOM_SEED)); [lia|].
      discriminate.
    - rewrite Hh. unfold lift.
      destruct (create_pcs_ds
                  (get (kw_num_components kw) constants.NUM_COMPONENTS))
        as [o|e] eqn:Ho.
      + destruct (create_pcs_ds_tuple _ _ Ho) as [ds [pca ->]].
        unfold descriptors_optimization_from, bind.
        rewrite Experiments_init_tuple. split; [eauto|].
        intros o' _ _. eauto.
      + split; [eauto|]. intros o' _ Ho'. discriminate. }
  split; [intros; apply D|].
  split; [intros save kw h o; apply D|].
  assert (S : forall batch_size num_batches seed h o,
             create_pcs_ds 3 = Ok o ->
             SolventEvolutionaryOptimization_init batch_size num_batches seed
               None h = (Raise tuple_has_no_index_values, h)).
  { intros b n seed h o Ho.
    unfold SolventEvolutionaryOptimization_init, bind, lift.
    rewrite Ho. destruct (create_pcs_ds_tuple _ _ Ho) as [ds [pca ->]].
    reflexivity. }
  split; [|exact S].
  intros b n seed [o|] h.
  - unfold SolventEvolutionaryOptimization_init, bind, lift, ret, raise.
    destruct (obj_index_values o); [|eauto].
    destruct (RandomState_new_cases seed h) as [[e He]|[_ [h' Hh]]].
    + rewrite He. eauto.
    + rewrite Hh. eauto.
  - destruct (create_pcs_ds 3) as [o|e] eqn:Ho.
    + rewrite (S b n seed h o eq_refl). eauto.
    + unfold SolventEvolutionaryOptimization_init, bind, lift.
      rewrite Ho. eauto.
Qed.

End EntryPointProperties.

(** With the toy libraries [create_pcs_ds] returns, and the entry points
    stop on its pair. *)
Example entry_points_on_toy :
  fst (@descriptors_optimization Toy.externals false no_kwargs
         (Toy.heap zero))
  = Raise tuple_has_no_index_values
  /\ fst (@SolventEvolutionaryOptimization_init Toy.externals 8 4 1000 None
            (Toy.heap zero))
     = Raise tuple_has_no_index_values
  /\ fst (@SolventEvolutionaryOptimization_init Toy.externals 8 4 1000
            (Some (PyDataSet Toy.solvents)) (Toy.heap zero))
     = Raise (TypeError
         "generate_initial_experiment_data() missing 1 required positional argument: 'experiments'").
Proof. repeat split. Qed.

(** ** Repeated evaluation *)

Section Determinism.

Context `{Externals}.

(** [_run] reads the heap through the next draw of its random state
    only. *)
Lemma _run_reads_next_draw (self : Experiments) (c : cas)
    (rxn_time step_size : float) (h1 h2 : Heap) :
  cell h1 (random_state self) 0%nat = cell h2 (random_state self) 0%nat ->
  fst (_run self c rxn_time step_size h1)
  = fst (_run self c rxn_time step_size h2).
Proof.
  intros E. unfold _run, _run_series, bind, randn, lift. rewrite E.
  destruct (rbind _ _) as [[conv d]|e]; reflexivity.
Qed.

Lemma _run_heap (self : Experiments) (c : cas) (rxn_time step_size : float)
    (h : Heap) :
  snd (_run self c rxn_time step_size h)
  = heap_set h (random_state self)
             (fun k => cell h (random_state self) (S k)).
Proof.
  unfold _run, _run_series, bind, randn, lift.
  destruct (rbind _ _) as [[conv d]|e]; reflexivity.
Qed.


End Determinism.


(** ** Failure of the integration *)

Lemma mapM_app_raise {A B} (f : A -> M B) (pre post : list A) (a : A)
    (bs : list B) (e : exn) (h h1 h2 : Heap) :
  mapM f pre h = (Ok bs, h1) ->
  f a h1 = (Raise e, h2) ->
  mapM f (pre ++ a :: post) h = (Raise e, h2).
Proof.
  revert bs h. induction pre as [|p pre IH]; intros bs h Hpre Ha.
  - injection Hpre as _ <-. simpl. unfold bind. now rewrite Ha.
  - simpl in *. unfold bind in *.
    destruct (f p h) as [[b|e'] h'] eqn:Ep; [|discriminate].
    destruct (mapM f pre h') as [[bs'|e'] h''] eqn:Em; [|discriminate].
    injection Hpre as _ <-.
    now rewrite (IH bs' h' Em Ha).
Qed.

Lemma set_row_in_range {A} (l : list A) (i : nat) (v : A) :
  (i < List.length l)%nat ->
  exists l', set_row l i v = Ok l' /\ List.length l' = List.length l.
Proof.
  revert i. induction l as [|a l IH]; intros i Hi; simpl in Hi; [lia|].
  destruct i as [|i]; simpl.
  - eexists; split; reflexivity.
  - destruct (IH i) as [l' [-> Hl]]; [lia|]. simpl.
    eexists; split; [reflexivity|]. simpl. now rewrite Hl.
Qed.

Section IntegrationFailure.

Context `{Externals}.

Lemma integrate_steps_nonconvergence (self : Experiments) (c : cas)
    (targets : list float) :
  forall r,
    reports_nonconvergence self c r targets = true ->
    integrate_steps self c r targets = Raise (could_not_integrate c).
Proof.
  induction targets as [|ti ts IH]; simpl; intros r Hr; [discriminate|].
  destruct (vode_integrate _ r ti) as [[r' y]|e]; [|discriminate].
  simpl. destruct (assign_row _ y) as [row|e]; [|discriminate].
  simpl. destruct (vode_successful r'); [|reflexivity].
  now rewrite (IH r' Hr).
Qed.

(** The oracle's side: the exception names the solvent. *)
Lemma run_nonconvergence (self : Experiments) (c : cas) (h : Heap)
    (trange : list float) :
  all_experiments self = None ->
  time_grid (noisy_rxn_time default_rxn_time
               (cell h (random_state self) 0%nat)) default_step_size
    = Ok trange ->
  reports_nonconvergence self c
    (vode_set_initial_value (fun t x => _rate self t x c) [zero; zero]
                            (of_Z 0))
    (tl trange) = true ->
  run self c h
  = (Raise (could_not_integrate c),
     heap_set h (random_state self)
              (fun k => cell h (random_state self) (S k))).
Proof.
  intros Hnone Hgrid Hnc. unfold run. rewrite Hnone.
  unfold _run, _run_series, bind, randn, lift, _integrate_rate.
  rewrite Hgrid. simpl rbind.
  now rewrite (integrate_steps_nonconvergence _ _ _ _ Hnc).
Qed.

(** The driver's side: an exception of the batch evaluation leaves the
    loop with the table as it was before the round. *)
Lemma round_evaluation_raises (experiments : Experiments) (batch_size : Z)
    (ni no : bool) (i : Z) (st : LoopState) (h h' : Heap)
    (design : list cas) (hv : float) (tsemo' : TSEMO) (loo : list float)
    (e : exn) :
  TSEMO_generate_experiments (ls_tsemo st) (ls_previous_experiments st)
    batch_size ni no = (Ok (design, hv), tsemo') ->
  (Z.to_nat i < List.length (ls_lengthscales st))%nat ->
  (Z.to_nat i < List.length (ls_log_likelihoods st))%nat ->
  (Z.to_nat i < List.length (ls_hv_improvements st))%nat ->
  (Z.to_nat i < List.length (ls_loo_errors st))%nat ->
  TSEMO_loo_errors tsemo' = Ok loo ->
  mapM (run experiments) design h = (Raise e, h') ->
  round experiments batch_size ni no i st h = (Raise e, h').
Proof.
  intros Hp H1 H2 H3 H4 Hloo Hev. unfold round. rewrite Hp.
  destruct (set_row_in_range _ _ (TSEMO_lengthscales tsemo') H1) as [? [E1 _]].
  destruct (set_row_in_range _ _ (TSEMO_log_likelihoods tsemo') H2)
    as [? [E2 _]].
  destruct (set_row_in_range _ _ hv H3) as [? [E3 _]].
  destruct (set_row_in_range _ _ loo H4) as [? [E4 _]].
  unfold bind, lift. rewrite E1, E2, E3, Hloo, E4, Hev. reflexivity.
Qed.

(** C2.  When, in a round, the integration of a proposed solvent [c]
    reports that it did not succeed, the evaluation of [c] raises the
    runtime error whose message names [c], and the loop of the driver ends
    by that exception with the table of experiments it had before the
    round: no row of the failing round is in it. *)
Theorem nonconvergence_aborts_run (experiments : Experiments)
    (batch_size : Z) (ni no : bool) (i : Z) (rounds : list Z)
    (st : LoopState) (h h1 : Heap) (pre post : list cas) (c : cas)
    (hv : float) (tsemo' : TSEMO) (loo : list float)
    (done : list (float * float)) (trange : list float) :
  all_experiments experiments = None ->
  TSEMO_generate_experiments (ls_tsemo st) (ls_previous_experiments st)
    batch_size ni no = (Ok (pre ++ c :: post, hv), tsemo') ->
  (Z.to_nat i < List.length (ls_lengthscales st))%nat ->
  (Z.to_nat i < List.length (ls_log_likelihoods st))%nat ->
  (Z.to_nat i < List.length (ls_hv_improvements st))%nat ->
  (Z.to_nat i < List.length (ls_loo_errors st))%nat ->
  TSEMO_loo_errors tsemo' = Ok loo ->
  mapM (run experiments) pre h = (Ok done, h1) ->
  time_grid (noisy_rxn_time default_rxn_time
               (cell h1 (random_state experiments) 0%nat)) default_step_size
    = Ok trange ->
  reports_nonconvergence experiments c
    (vode_set_initial_value (fun t x => _rate experiments t x c)
                            [zero; zero] (of_Z 0))
    (tl trange) = true ->
  exists h',
    run experiments c h1
    = (Raise (RuntimeError ("Could not integrate: " ++ c)), h')
    /\ run_loop experiments batch_size ni no (i :: rounds) st h
       = (Aborted (RuntimeError ("Could not integrate: " ++ c))
                  (ls_previous_experiments st), h').
Proof.
  intros Hnone Hp H1 H2 H3 H4 Hloo Hpre Hgrid Hnc.
  pose proof (run_nonconvergence _ _ _ _ Hnone Hgrid Hnc) as Hrun.
  eexists. split; [exact Hrun|].
  pose proof (mapM_app_raise _ _ post _ _ _ _ _ _ Hpre Hrun) as Hev.
  simpl. now rewrite (round_evaluation_raises _ _ _ _ _ _ _ _ _ _ _ _ _
                        Hp H1 H2 H3 H4 Hloo Hev).
Qed.

End IntegrationFailure.

Lemma nonconvergence_aborts_run_witness :
  exists h',
    @run_loop Toy.diverging Toy.oracle 8 false false [0; 1; 2] Toy.storage
              (Toy.heap zero)
    = (Aborted (RuntimeError "Could not integrate: 67-64-1")
               Toy.initial_table, h').
Proof.
  edestruct (@nonconvergence_aborts_run Toy.diverging Toy.oracle 8 false
               false 0 [1; 2] Toy.storage (Toy.heap zero) (Toy.heap zero)
               [] (repeat Toy.acetone 7) Toy.acetone)
    as [h' [_ Hloop]];
    [ reflexivity | reflexivity | simpl; lia | simpl; lia | simpl; lia
    | simpl; lia | reflexivity | reflexivity | vm_compute; reflexivity
    | vm_compute; reflexivity | ].
  exists h'. exact Hloop.
Defined.

(** ** The size of the table and of the diagnostics *)

Lemma np_full_Ok (n k : Z) (l : list Z) :
  np_full n k = Ok l -> 0 <= n /\ List.length l = Z.to_nat n.
Proof.
  unfold np_full. destruct (Z.ltb_spec n 0); [discriminate|].
  intros [= <-]. split; [lia | apply repeat_length].
Qed.


Lemma columns_Ok (rows : list (float * float)) (cs ds : list float) :
  columns rows = Ok (cs, ds) ->
  rows <> [] /\ List.length cs = List.length rows
  /\ List.length ds = List.length rows.
Proof.
  destruct rows as [|r rows]; [discriminate|].
  intros [= <- <-]. simpl. rewrite !length_map.
  repeat split. discriminate.
Qed.

Lemma arange_length (a b : Z) : List.length (arange a b) = Z.to_nat (b - a).
Proof. unfold arange. now rewrite length_map, zrange_length. Qed.

Lemma zip_rows_length (idx : list Z) :
  forall (cs ds : list float) (ss : list cas) (bs : list Z),
    List.length cs = List.length idx -> List.length ds = List.length idx ->
    List.length ss = List.length idx -> List.length bs = List.length idx ->
    List.length (zip_rows idx cs ds ss bs) = List.length idx.
Proof.
  induction idx as [|i idx IH]; intros [|c cs] [|d ds] [|s ss] [|b bs];
    simpl; intros; try discriminate; try reflexivity.
  f_equal. apply IH; lia.
Qed.

Lemma DataSet_of_columns_Ok (cs ds : list float) (ss : list cas)
    (bs : list Z) (t : Experiment_table) :
  DataSet_of_columns cs ds ss bs = Ok t ->
  List.length t = List.length cs /\ List.length ss = List.length cs
  /\ List.length bs = List.length cs.
Proof.
  unfold DataSet_of_columns.
  destruct (Nat.eqb_spec (List.length ds) (List.length cs)) as [E1|];
    [|discriminate].
  destruct (Nat.eqb_spec (List.length ss) (List.length cs)) as [E2|];
    [|discriminate].
  destruct (Nat.eqb_spec (List.length bs) (List.length cs)) as [E3|];
    [|discriminate].
  simpl. intros [= <-].
  assert (L : List.length (arange 0 (Z.of_nat (List.length cs)))
              = List.length cs) by (rewrite arange_length; lia).
  rewrite zip_rows_length; rewrite ?L; auto.
Qed.

Lemma set_index_Ok (t t' : Experiment_table) (idx : list Z) :
  set_index t idx = Ok t' -> List.length t' = List.length t.
Proof.
  unfold set_index.
  destruct (Nat.eqb_spec (List.length idx) (List.length t)) as [E|];
    [|discriminate].
  intros [= <-]. rewrite length_map, length_combine. lia.
Qed.

Lemma set_row_Ok {A} (l : list A) :
  forall (i : nat) (v : A) (l' : list A),
    set_row l i v = Ok l' -> List.length l' = List.length l.
Proof.
  induction l as [|a l IH]; intros [|i] v l'; simpl; try discriminate.
  - now intros [= <-].
  - intros Hr. apply rbind_Ok in Hr as [r [Hr E]]. injection E as <-.
    simpl. f_equal. eapply IH; eassumption.
Qed.

Lemma mapM_Ok_length {A B} (f : A -> M B) (l : list A) :
  forall (bs : list B) (h h' : Heap),
    mapM f l h = (Ok bs, h') -> List.length bs = List.length l.
Proof.
  induction l as [|a l IH]; simpl; intros bs h h' Hm.
  - now injection Hm as <- _.
  - unfold bind in Hm.
    destruct (f a h) as [[b|e] h1]; [|discriminate].
    destruct (mapM f l h1) as [[bs'|e] h2] eqn:Em; [|discriminate].
    injection Hm as <- _. simpl. f_equal. eapply IH; eassumption.
Qed.

(** The table built from the results of one batch has [batch_size] rows,
    and [batch_size] is at least one. *)
Lemma batch_table_Ok (results : list (float * float)) (design : list cas)
    (batch_size tag : Z) (idx : list Z) (t : Experiment_table) :
  (let? (conv, de) := columns results in
   let? tags := np_full batch_size tag in
   let? table := DataSet_of_columns conv de design tags in
   set_index table idx)%result = Ok t ->
  1 <= batch_size /\ Z.of_nat (List.length t) = batch_size.
Proof.
  intros Ht.
  apply rbind_Ok in Ht as [[conv d] [Hc Ht]].
  apply rbind_Ok in Ht as [tags [Htags Ht]].
  apply rbind_Ok in Ht as [table [Htable Ht]].
  apply columns_Ok in Hc as [Hne [Hconv _]].
  apply np_full_Ok in Htags as [Hb Htags].
  apply DataSet_of_columns_Ok in Htable as [Hlen [_ Hbs]].
  apply set_index_Ok in Ht.
  assert (List.length results <> 0%nat) by (destruct results; simpl; congruence).
  lia.
Qed.

Section DriverProperties.

Context `{Externals}.


Lemma round_Ok (experiments : Experiments) (batch_size : Z) (ni no : bool)
    (i : Z) (st st' : LoopState) (h h' : Heap) :
  round experiments batch_size ni no i st h = (Ok st', h') ->
  1 <= batch_size
  /\ Z.of_nat (List.length (ls_previous_experiments st'))
     = Z.of_nat (List.length (ls_previous_experiments st)) + batch_size
  /\ same_storage st st'.
Proof.
  unfold round, bind, lift, ret. intros Hr.
  destruct (TSEMO_generate_experiments _ _ _ _ _) as [[[design hv]|e] tsemo];
    [|discriminate].
  destruct (set_row (ls_lengthscales st) _ _) as [ls|e] eqn:E1;
    [|discriminate].
  destruct (set_row (ls_log_likelihoods st) _ _) as [ll|e] eqn:E2;
    [|discriminate].
  destruct (set_row (ls_hv_improvements st) _ _) as [hvs|e] eqn:E3;
    [|discriminate].
  destruct (TSEMO_loo_errors tsemo) as [loo|e]; [|discriminate].
  destruct (set_row (ls_loo_errors st) _ _) as [loos|e] eqn:E4;
    [|discriminate].
  destruct (mapM _ design h) as [[results|e] h1]; [|discriminate].
  destruct (rbind (columns results) _) as [table|e] eqn:Et; [|discriminate].
  injection Hr as <- _. simpl.
  apply batch_table_Ok in Et as [Hb Ht].
  apply set_row_Ok in E1, E2, E3, E4.
  rewrite length_app. unfold same_storage. simpl.
  repeat split; try assumption. lia.
Qed.









End DriverProperties.


(** ** Reproducibility *)








Section Reproducibility.

Context `{Externals}.














End Reproducibility.

(** A complete run on the toy libraries, from two different heaps. *)
Example complete_run_on_toy :
  exists r,
    fst ((random_state <- @RandomState_new Toy.externals 1000 ;;
          @descriptors_optimization_from Toy.externals
            (PyDataSet Toy.solvents) random_state false no_kwargs)%M
           (Toy.heap zero)) = Ok r
    /\ fst ((random_state <- @RandomState_new Toy.externals 1000 ;;
             @descriptors_optimization_from Toy.externals
               (PyDataSet Toy.solvents) random_state false no_kwargs)%M
              {| cell := fun _ _ => of_Z 3; next_ref := 7%nat |}) = Ok r
    /\ List.length (experiments r) = 32%nat
    /\ List.length (lengthscales r) = 3%nat.
Proof.
  eexists. split; [vm_compute; reflexivity|].
  split; [vm_compute; reflexivity|]. split; reflexivity.
Qed.

(** * Further properties *)

(** ** The full factorial design *)

Lemma concat_repeat_length {A} (l : list A) (k : nat) :
  List.length (List.concat (repeat l k)) = (k * List.length l)%nat.
Proof.
  induction k as [|k IH]; simpl; [reflexivity|].
  rewrite length_app, IH. reflexivity.
Qed.

Lemma concat_repeat_nth {A} (l : list A) (d : A) (k : nat) :
  forall r, (r < k * List.length l)%nat ->
            nth r (List.concat (repeat l k)) d
            = nth (r mod List.length l) l d.
Proof.
  induction k as [|k IH]; simpl; intros r Hr; [lia|].
  destruct (Nat.lt_ge_cases r (List.length l)) as [Hlt|Hge].
  - rewrite app_nth1 by assumption. now rewrite Nat.mod_small.
  - rewrite app_nth2 by assumption. rewrite IH by lia.
    f_equal.
    replace r with ((r - List.length l) + 1 * List.length l)%nat at 2 by lia.
    now rewrite Nat.Div0.mod_add.
Qed.

Lemma concat_repeat_singleton {A} (a : A) (k : nat) :
  List.concat (repeat [a] k) = repeat a k.
Proof. induction k as [|k IH]; simpl; [reflexivity | now rewrite IH]. Qed.

Lemma list_times_of_nat {A} (l : list A) (k : nat) :
  list_times l (Z.of_nat k) = List.concat (repeat l k).
Proof. unfold list_times. now rewrite Nat2Z.id. Qed.

(** The levels of one factor, each repeated [p] times. *)
Lemma level_blocks_length (p n : nat) :
  forall a,
    List.length (flat_map (fun j => list_times [j] (Z.of_nat p))
                          (map Z.of_nat (seq a n))) = (n * p)%nat.
Proof.
  induction n as [|n IH]; intros a; simpl; [reflexivity|].
  rewrite length_app, IH, list_times_of_nat, concat_repeat_singleton,
    repeat_length. reflexivity.
Qed.

Lemma level_blocks_nth (p n : nat) :
  forall a r,
    (r < n * p)%nat ->
    nth r (flat_map (fun j => list_times [j] (Z.of_nat p))
                    (map Z.of_nat (seq a n))) 0
    = Z.of_nat (a + r / p).
Proof.
  induction n as [|n IH]; intros a r Hr; simpl in *; [lia|].
  rewrite list_times_of_nat, concat_repeat_singleton.
  destruct (Nat.lt_ge_cases r p) as [Hlt|Hge].
  - rewrite app_nth1 by now rewrite repeat_length.
    rewrite (nth_error_nth _ _ _ (nth_error_repeat (Z.of_nat a) Hlt)).
    rewrite Nat.div_small by assumption. f_equal. lia.
  - rewrite app_nth2 by now rewrite repeat_length.
    rewrite repeat_length, IH by lia. f_equal.
    replace r with ((r - p) + 1 * p)%nat at 2 by lia.
    rewrite Nat.div_add by lia. lia.
Qed.

(** One column of the design: entry [r] is digit [(r / p) mod l]. *)
Lemma fullfact_column_nth (p l q r : nat) :
  (r < q * (l * p))%nat ->
  nth r (list_times
           (flat_map (fun j => list_times [j] (Z.of_nat p))
                     (zrange (Z.of_nat l)))
           (Z.of_nat q)) 0
  = Z.of_nat ((r / p) mod l).
Proof.
  intros Hr. unfold zrange. rewrite Nat2Z.id, list_times_of_nat.
  assert (Hp : (0 < p)%nat) by (destruct p; [lia | lia]).
  rewrite concat_repeat_nth; rewrite level_blocks_length; [|assumption].
  rewrite level_blocks_nth by (apply Nat.mod_upper_bound; lia).
  simpl. f_equal.
  rewrite (Nat.mul_comm l p), Nat.Div0.mod_mul_r.
  rewrite (Nat.mul_comm p), Nat.div_add by lia.
  rewrite Nat.div_small by (apply Nat.mod_upper_bound; lia). reflexivity.
Qed.

Lemma np_prod_of_nat (ls : list nat) :
  np_prod (map Z.of_nat ls) = Z.of_nat (fold_right Nat.mul 1%nat ls).
Proof.
  unfold np_prod. induction ls as [|l ls IH]; simpl; [reflexivity|].
  rewrite IH. lia.
Qed.

Lemma fullfact_columns_rows (ls : list nat) :
  Forall (fun l => 1 <= l)%nat ls ->
  forall p,
    (1 <= p)%nat ->
    let q := fold_right Nat.mul 1%nat ls in
    exists columns,
      fullfact_columns (map Z.of_nat ls) (Z.of_nat (p * q)) (Z.of_nat p)
                       (Z.of_nat q) = Ok columns
      /\ forall r, (r < p * q)%nat ->
                   map (fun column => nth r column 0) columns
                   = mixed_radix (map Z.of_nat ls) (Z.of_nat (r / p)).
Proof.
  induction 1 as [|l ls Hl _ IH]; intros p Hp; simpl.
  - exists []. split; reflexivity.
  - set (q := fold_right Nat.mul 1%nat ls) in *.
    replace (Z.of_nat (l * q) / Z.of_nat l) with (Z.of_nat q)
      by (rewrite Nat2Z.inj_mul, Z.mul_comm, Z.div_mul; lia).
    unfold assign_column.
    assert (Hlen : Z.of_nat (List.length
                     (list_times
                        (flat_map (fun j => list_times [j] (Z.of_nat p))
                                  (zrange (Z.of_nat l)))
                        (Z.of_nat q)))
                   = Z.of_nat (p * (l * q))).
    { rewrite list_times_of_nat, concat_repeat_length. unfold zrange.
      rewrite Nat2Z.id, level_blocks_length. f_equal. lia. }
    rewrite Hlen, Z.eqb_refl. cbn [rbind].
    destruct (IH (p * l)%nat) as [columns [Hc Hrows]]; [lia|].
    fold q in Hc, Hrows.
    replace (Z.of_nat (p * (l * q))) with (Z.of_nat (p * l * q)) by (f_equal; lia).
    rewrite <- Nat2Z.inj_mul, Hc. cbn [rbind].
    eexists. split; [reflexivity|].
    intros r Hr. cbn [map]. f_equal.
    + rewrite fullfact_column_nth by lia.
      now rewrite Nat2Z.inj_mod.
    + rewrite Hrows by lia. f_equal.
      rewrite <- Nat2Z.inj_div. f_equal.
      now rewrite Nat.Div0.div_div.
Qed.

Lemma positive_levels_of_nat (levels : list Z) :
  Forall (fun l => 1 <= l) levels ->
  levels = map Z.of_nat (map Z.to_nat levels)
  /\ Forall (fun l => 1 <= l)%nat (map Z.to_nat levels).
Proof.
  induction 1 as [|l levels Hl _ [IH1 IH2]]; simpl.
  - split; [reflexivity | constructor].
  - split; [rewrite Z2Nat.id by lia; now f_equal | constructor; [lia|assumption]].
Qed.

Lemma fullfact_nonempty (levels : list Z) :
  levels <> [] ->
  fullfact levels
  = if np_prod levels <? 0
    then Raise (ValueError "negative dimensions are not allowed")
    else rbind (fullfact_columns levels (np_prod levels) 1 (np_prod levels))
               (fun columns =>
                  Ok (map (fun r => map (fun column => nth r column 0) columns)
                          (seq 0 (Z.to_nat (np_prod levels))))).
Proof. destruct levels; [congruence | reflexivity]. Qed.

Lemma fullfact_mixed_radix (levels : list Z) :
  levels <> [] ->
  Forall (fun l => 1 <= l) levels ->
  fullfact levels
  = Ok (map (mixed_radix levels) (zrange (np_prod levels))).
Proof.
  intros Hne Hpos.
  destruct (positive_levels_of_nat levels Hpos) as [Hl Hls].
  set (ls := map Z.to_nat levels) in *. clearbody ls. subst levels.
  set (q := fold_right Nat.mul 1%nat ls).
  destruct (fullfact_columns_rows ls Hls 1%nat (le_n 1)) as [columns [Hc Hrows]].
  fold q in Hc, Hrows. rewrite Nat.mul_1_l in Hc, Hrows.
  rewrite (fullfact_nonempty _ Hne), np_prod_of_nat. fold q.
  destruct (Z.ltb_spec (Z.of_nat q) 0); [lia|].
  change (Z.of_nat 1) with 1 in Hc. rewrite Hc. cbn [rbind].
  f_equal. unfold zrange. rewrite Nat2Z.id, map_map.
  apply map_ext_in. intros r Hr. apply in_seq in Hr.
  rewrite Hrows by lia. now rewrite Nat.div_1_r.
Qed.

(** X1.  For a non-empty list of positive levels [fullfact] returns one row
    per number below the product of the levels, and row [r] holds the
    digits of [r] in the mixed radix of the levels, the first factor
    varying fastest. *)
Theorem fullfact_rows (levels : list Z) :
  levels <> [] ->
  Forall (fun l => 1 <= l) levels ->
  fullfact levels
  = Ok (map (mixed_radix levels) (zrange (np_prod levels))).
Proof. apply fullfact_mixed_radix. Qed.

Lemma fullfact_rows_witness :
  fullfact [2; 3] = Ok [[0; 0]; [1; 0]; [0; 1]; [1; 1]; [0; 2]; [1; 2]].
Proof.
  rewrite (fullfact_rows [2; 3]).
  - reflexivity.
  - discriminate.
  - repeat constructor; lia.
Defined.

Lemma mixed_radix_in_range (levels : list Z) :
  Forall (fun l => 1 <= l) levels ->
  forall r, Forall2 (fun v l => 0 <= v < l) (mixed_radix levels r) levels.
Proof.
  induction 1 as [|l levels Hl _ IH]; intros r; simpl; constructor.
  - apply Z.mod_pos_bound. lia.
  - apply IH.
Qed.

Lemma mixed_radix_injective (levels : list Z) :
  Forall (fun l => 1 <= l) levels ->
  forall r r',
    0 <= r < np_prod levels -> 0 <= r' < np_prod levels ->
    mixed_radix levels r = mixed_radix levels r' -> r = r'.
Proof.
  unfold np_prod.
  induction 1 as [|l levels Hl _ IH]; simpl; intros r r' Hr Hr' E; [lia|].
  injection E as Emod Ediv.
  assert (r / l = r' / l).
  { apply IH; try assumption.
    - split; [apply Z.div_pos; lia|].
      apply Z.div_lt_upper_bound; lia.
    - split; [apply Z.div_pos; lia|].
      apply Z.div_lt_upper_bound; lia. }
  rewrite (Z.div_mod r l), (Z.div_mod r' l) by lia. congruence.
Qed.

Lemma mixed_radix_surjective (levels t : list Z) :
  Forall2 (fun v l => 0 <= v < l) t levels ->
  exists r, 0 <= r < np_prod levels /\ mixed_radix levels r = t.
Proof.
  unfold np_prod.
  induction 1 as [|v l t levels Hv _ [r [Hr Er]]]; simpl.
  - exists 0. split; [lia | reflexivity].
  - exists (v + l * r). split; [nia|].
    replace (v + l * r) with (v + r * l) by ring.
    f_equal.
    + rewrite Z.mod_add by lia. apply Z.mod_small. lia.
    + rewrite Z.div_add by lia.
      rewrite (Z.div_small v l) by lia. now rewrite Z.add_0_l.
Qed.

Lemma zrange_In (n x : Z) : In x (zrange n) <-> 0 <= x < n.
Proof.
  unfold zrange. rewrite in_map_iff. split.
  - intros [k [<- Hk]]. apply in_seq in Hk. lia.
  - intros Hx. exists (Z.to_nat x). split; [lia|]. apply in_seq. lia.
Qed.

Lemma NoDup_map_on {A B} (f : A -> B) (l : list A) :
  (forall x y, In x l -> In y l -> f x = f y -> x = y) ->
  NoDup l -> NoDup (map f l).
Proof.
  intros Hinj Hl. induction Hl as [|a l Ha Hl IH]; simpl; constructor.
  - intros Hin. apply in_map_iff in Hin as [y [Ey Hy]].
    apply Ha. rewrite <- (Hinj y a); simpl; auto.
  - apply IH. intros x y Hx Hy. apply Hinj; simpl; auto.
Qed.

Lemma zrange_NoDup (n : Z) : NoDup (zrange n).
Proof.
  unfold zrange. apply NoDup_map_on; [|apply seq_NoDup].
  intros a b _ _. apply Nat2Z.inj.
Qed.

(** X2.  The design is full and has no repetition: for a non-empty list of
    positive levels, a row occurs in the matrix exactly when each of its
    entries is a level number of its factor, and no row occurs twice. *)
Theorem fullfact_each_combination_once (levels : list Z)
    (H : list (list Z)) :
  levels <> [] ->
  Forall (fun l => 1 <= l) levels ->
  fullfact levels = Ok H ->
  NoDup H
  /\ (forall t, In t H <-> Forall2 (fun v l => 0 <= v < l) t levels)
  /\ Z.of_nat (List.length H) = np_prod levels.
Proof.
  intros Hne Hpos HH. rewrite (fullfact_mixed_radix levels Hne Hpos) in HH.
  injection HH as <-. split; [|split].
  - apply NoDup_map_on; [|apply zrange_NoDup].
    intros x y Hx Hy. apply zrange_In in Hx, Hy.
    now apply mixed_radix_injective.
  - intros t. rewrite in_map_iff. split.
    + intros [r [<- _]]. now apply mixed_radix_in_range.
    + intros Ht. destruct (mixed_radix_surjective levels t Ht) as [r [Hr Er]].
      exists r. split; [assumption | now apply zrange_In].
  - rewrite length_map, zrange_length.
    assert (0 <= np_prod levels).
    { unfold np_prod. clear Hne. induction Hpos; simpl; nia. }
    lia.
Qed.

Lemma fullfact_each_combination_once_witness :
  exists H,
    fullfact [2; 2; 2; 2; 3] = Ok H
    /\ NoDup H
    /\ (forall t, In t H
                  <-> Forall2 (fun v l => 0 <= v < l) t [2; 2; 2; 2; 3])
    /\ Z.of_nat (List.length H) = 48.
Proof.
  destruct (fullfact [2; 2; 2; 2; 3]) as [H|e] eqn:E; [|discriminate].
  exists H. split; [reflexivity|].
  apply (fullfact_each_combination_once [2; 2; 2; 2; 3] H).
  - discriminate.
  - repeat constructor; lia.
  - exact E.
Defined.

Lemma np_prod_zero (levels : list Z) : In 0 levels -> np_prod levels = 0.
Proof.
  unfold np_prod. induction levels as [|l levels IH]; simpl; [tauto|].
  intros [->|Hin]; [reflexivity | rewrite IH by assumption; lia].
Qed.

Lemma fullfact_columns_no_lines (levels : list Z) :
  forall level_repeat,
    fullfact_columns levels 0 level_repeat 0
    = Ok (map (fun _ => []) levels).
Proof.
  induction levels as [|l levels IH]; intros p; simpl; [reflexivity|].
  rewrite Zdiv_0_l. unfold list_times at 1. simpl.
  rewrite IH. reflexivity.
Qed.

(** X3.  A factor without levels empties the design: when some level is
    zero, [fullfact] returns a matrix without rows (and raises nothing),
    whatever the other levels are. *)
Theorem fullfact_zero_level (levels : list Z) :
  In 0 levels -> fullfact levels = Ok [].
Proof.
  intros Hin.
  assert (Hne : levels <> []) by (destruct levels; [contradiction | discriminate]).
  rewrite (fullfact_nonempty _ Hne), (np_prod_zero _ Hin).
  simpl. rewrite fullfact_columns_no_lines. reflexivity.
Qed.

Lemma fullfact_zero_level_witness : fullfact [2; 0; -3] = Ok [].
Proof. apply fullfact_zero_level. simpl. tauto. Defined.

(** ** The layout of the table of experiments *)

Lemma zip_rows_columns (idx : list Z) :
  forall (cs ds : list float) (ss : list cas) (bs : list Z),
    List.length cs = List.length idx -> List.length ds = List.length idx ->
    List.length ss = List.length idx -> List.length bs = List.length idx ->
    let t := zip_rows idx cs ds ss bs in
    map row_index t = idx /\ map conversion t = cs /\ map de t = ds
    /\ map solvent t = ss /\ map batch t = bs.
Proof.
  induction idx as [|i idx IH]; intros [|c cs] [|d ds] [|s ss] [|b bs];
    simpl; intros; try discriminate; try (repeat split; reflexivity).
  destruct (IH cs ds ss bs) as (E1 & E2 & E3 & E4 & E5); try lia.
  repeat split; f_equal; assumption.
Qed.

Lemma set_index_columns (t t' : Experiment_table) (idx : list Z) :
  set_index t idx = Ok t' ->
  map row_index t' = idx /\ map conversion t' = map conversion t
  /\ map de t' = map de t /\ map solvent t' = map solvent t
  /\ map batch t' = map batch t.
Proof.
  unfold set_index.
  destruct (Nat.eqb_spec (List.length idx) (List.length t)) as [E|];
    [|discriminate].
  intros [= <-]. revert t E.
  induction idx as [|i idx IH]; intros [|r t] E; simpl in *; try discriminate.
  - repeat split.
  - destruct (IH t) as (E1 & E2 & E3 & E4 & E5); [lia|].
    repeat split; f_equal; assumption.
Qed.

(** The table built from one batch: its columns. *)
Lemma batch_table_columns (results : list (float * float))
    (design : list cas) (batch_size tag : Z) (idx : list Z)
    (t : Experiment_table) :
  (let? (conv, de) := columns results in
   let? tags := np_full batch_size tag in
   let? table := DataSet_of_columns conv de design tags in
   set_index table idx)%result = Ok t ->
  map row_index t = idx
  /\ map batch t = repeat tag (Z.to_nat batch_size)
  /\ map solvent t = design
  /\ map conversion t = map fst results /\ map de t = map snd results.
Proof.
  intros Ht.
  apply rbind_Ok in Ht as [[conv d] [Hc Ht]].
  apply rbind_Ok in Ht as [tags [Htags Ht]].
  apply rbind_Ok in Ht as [table [Htable Ht]].
  assert (conv = map fst results /\ d = map snd results) as [-> ->].
  { destruct results; [discriminate|]. now injection Hc as <- <-. }
  assert (tags = repeat tag (Z.to_nat batch_size)) as ->.
  { unfold np_full in Htags. destruct (batch_size <? 0); [discriminate|].
    now injection Htags as <-. }
  apply set_index_columns in Ht as (E1 & E2 & E3 & E4 & E5).
  pose proof (DataSet_of_columns_Ok _ _ _ _ _ Htable) as (L1 & L2 & L3).
  unfold DataSet_of_columns in Htable.
  destruct (_ && _)%bool eqn:Eb; [|discriminate].
  injection Htable as <-.
  apply andb_prop in Eb as [Eb _]. apply andb_prop in Eb as [Eb _].
  apply Nat.eqb_eq in Eb.
  destruct (zip_rows_columns
              (arange 0 (Z.of_nat (List.length (map fst results))))
              (map fst results) (map snd results) design
              (repeat tag (Z.to_nat batch_size)))
    as (_ & Z2 & Z3 & Z4 & Z5);
    rewrite ?arange_length; try lia.
  repeat split; congruence.
Qed.

Section TableProperties.

Context `{Externals}.

(** What a round that completes adds to the table. *)
Lemma round_appends (experiments : Experiments) (batch_size : Z)
    (ni no : bool) (i : Z) (st st' : LoopState) (h h' : Heap) :
  round experiments batch_size ni no i st h = (Ok st', h') ->
  exists added,
    ls_previous_experiments st' = ls_previous_experiments st ++ added
    /\ map row_index added
       = arange (batch_size * (i + 1)) (batch_size * (i + 2))
    /\ map batch added = repeat (i + 1) (Z.to_nat batch_size)
    /\ Z.of_nat (List.length added) = batch_size.
Proof.
  intros Hr. pose proof (round_Ok _ _ _ _ _ _ _ _ _ Hr) as [_ [Hlen _]].
  revert Hr. unfold round, bind, lift, ret. intros Hr.
  destruct (TSEMO_generate_experiments _ _ _ _ _) as [[[design hv]|e] tsemo];
    [|discriminate].
  destruct (set_row (ls_lengthscales st) _ _); [|discriminate].
  destruct (set_row (ls_log_likelihoods st) _ _); [|discriminate].
  destruct (set_row (ls_hv_improvements st) _ _); [|discriminate].
  destruct (TSEMO_loo_errors tsemo); [|discriminate].
  destruct (set_row (ls_loo_errors st) _ _); [|discriminate].
  destruct (mapM _ design h) as [[results|e] h1]; [|discriminate].
  destruct (rbind (columns results) _) as [table|e] eqn:Et; [|discriminate].
  injection Hr as <- _. simpl in *.
  apply batch_table_columns in Et as (E1 & E2 & _).
  exists table. rewrite length_app in Hlen.
  repeat split; try assumption. lia.
Qed.

(** X4.  However the loop of [run_optimization] ends, the table it holds
    at that moment is the table it started from followed by complete
    batches: when it ends by an exception (of the strategy, of the
    cross-validation, of a shape check or of the oracle) after [k] complete
    rounds, [k * batch_size] rows were added and none of the failing
    round. *)
Theorem run_loop_aborted_whole_batches (experiments : Experiments)
    (batch_size : Z) (ni no : bool) (rounds : list Z) :
  forall (st : LoopState) (h h' : Heap) (e : exn) (t : Experiment_table),
    run_loop experiments batch_size ni no rounds st h = (Aborted e t, h') ->
    exists (k : nat) (added : Experiment_table),
      (k < List.length rounds)%nat
      /\ t = ls_previous_experiments st ++ added
      /\ Z.of_nat (List.length added) = batch_size * Z.of_nat k
      /\ map batch added
         = flat_map (fun i => repeat (i + 1) (Z.to_nat batch_size))
                    (firstn k rounds).
Proof.
  induction rounds as [|i rounds IH]; simpl; intros st h h' e t Hl;
    [discriminate|].
  destruct (round _ _ _ _ i st h) as [[st1|e1] h1] eqn:Er.
  - apply round_appends in Er as (added1 & E1 & _ & Eb & Elen).
    apply IH in Hl as (k & added & Hk & Et & Ea & Ebs).
    exists (S k), (added1 ++ added). repeat split.
    + lia.
    + rewrite Et, E1. now rewrite app_assoc.
    + rewrite length_app. lia.
    + rewrite map_app, Eb, Ebs. reflexivity.
  - injection Hl as _ <- _. exists 0%nat, []. repeat split.
    + lia.
    + now rewrite app_nil_r.
    + simpl. lia.
Qed.

End TableProperties.

Lemma run_loop_aborted_whole_batches_witness :
  exists e t h' (k : nat) (added : Experiment_table),
    @run_loop Toy.diverging Toy.oracle 8 false false [0; 1; 2] Toy.storage
              (Toy.heap zero) = (Aborted e t, h')
    /\ (k < 3)%nat
    /\ t = Toy.initial_table ++ added
    /\ Z.of_nat (List.length added) = 8 * Z.of_nat k.
Proof.
  destruct (@run_loop Toy.diverging Toy.oracle 8 false false [0; 1; 2]
              Toy.storage (Toy.heap zero)) as [[st|e t] h'] eqn:Hrun.
  - exfalso. vm_compute in Hrun. discriminate.
  - destruct (@run_loop_aborted_whole_batches Toy.diverging Toy.oracle 8
                false false [0; 1; 2] Toy.storage (Toy.heap zero) h' e t
                Hrun)
      as (k & added & Hk & Et & Ea & _).
    exists e, t, h', k, added. repeat split; assumption.
Defined.



Section TableLayout.

Context `{Externals}.




End TableLayout.


(** ** Edge cases of [run_optimization] *)


Section RunOptimizationEdges.

Context `{Externals}.

(** X6.  With [num_batches = 1] [run_optimization] makes no round: it
    returns the initial experiments as they are, with empty arrays of
    diagnostics, and asks nothing of the strategy or the oracle.  With
    [num_batches < 1] it raises the error of [np.zeros] for a negative
    dimension, again before any proposal. *)
Theorem run_optimization_without_rounds (tsemo : TSEMO)
    (initial : Experiment_table) (solvent_ds : pyobj)
    (batch_size num_batches num_components : Z) (random_state : ref)
    (oracle : Experiments) (ni no : bool) (h : Heap) :
  num_batches <= 1 -> 0 <= num_components ->
  run_optimization tsemo initial solvent_ds batch_size num_batches
    num_components random_state oracle ni no h
  = (if num_batches =? 1
     then Ok (mk_optimization_results initial [] [] [] [])
     else Raise (ValueError "negative dimensions are not allowed"), h).
Proof.
  intros HN Hk. unfold run_optimization, run_optimization_loop, np_zeros.
  destruct (Z.ltb_spec num_components 0); [lia|]. cbn [rbind].
  destruct (Z.eqb_spec num_batches 1) as [->|Hne].
  - reflexivity.
  - destruct (Z.ltb_spec (num_batches - 1) 0); [reflexivity | lia].
Qed.




(** X8.  With [save_to_disk] set, which is the default, the body of
    [descriptors_optimization] never returns a result: when the run itself
    completes, building the metadata raises [NameError] for the unbound
    name [d], and so the result of the run is lost. *)
Theorem save_to_disk_never_returns (solvent_pcs_ds : pyobj)
    (random_state : ref) (kw : kwargs) (h : Heap) :
  (exists e h',
      descriptors_optimization_from solvent_pcs_ds random_state true kw h
      = (Raise e, h'))
  /\ (forall r h',
        descriptors_optimization_from solvent_pcs_ds random_state false kw h
        = (Ok r, h') ->
        descriptors_optimization_from solvent_pcs_ds random_state true kw h
        = (Raise (NameError "name 'd' is not defined"), h')).
Proof.
  unfold descriptors_optimization_from, bind, ret, raise.
  destruct (Experiments_init _ _ _ _ h) as [[exp|e] h1]; [|split; [eauto|discriminate]].
  destruct (generate_initial_experiment_data _ _ _ _ _ _ h1)
    as [[initial|e] h2]; [|split; [eauto|discriminate]].
  destruct (run_optimization _ _ _ _ _ _ _ _ _ _ h2) as [[r|e] h3];
    [|split; [eauto|discriminate]].
  split; [eauto|]. now intros r' h' [= <- <-].
Qed.

End RunOptimizationEdges.

Lemma run_optimization_without_rounds_witness :
  @run_optimization Toy.externals 0%nat Toy.initial_table
    (PyDataSet Toy.solvents) 8 1 3 default_random_state Toy.oracle false
    false (Toy.heap zero)
  = (Ok (mk_optimization_results Toy.initial_table [] [] [] []),
     Toy.heap zero).
Proof.
  apply (@run_optimization_without_rounds Toy.externals 0%nat
           Toy.initial_table (PyDataSet Toy.solvents) 8 1 3
           default_random_state Toy.oracle false false (Toy.heap zero));
    lia.
Defined.


(** ** The pre-calculated oracle *)

Lemma list_index_Ok (l : list cas) (c : cas) (i : nat) :
  list_index l c = Ok i ->
  nth_error l i = Some c
  /\ forall j, (j < i)%nat -> nth_error l j <> Some c.
Proof.
  revert i. induction l as [|c' l IH]; simpl; intros i Hi; [discriminate|].
  destruct (String.eqb_spec c' c) as [->|Hne].
  - injection Hi as <-. split; [reflexivity | lia].
  - apply rbind_Ok in Hi as [i' [Hi' E]]. injection E as <-.
    destruct (IH i' Hi') as [Hn Hfirst]. split; [assumption|].
    intros [|j] Hj; simpl; [congruence | apply Hfirst; lia].
Qed.

Lemma list_index_missing (l : list cas) (c : cas) :
  ~ In c l -> list_index l c = Raise (ValueError "is not in list").
Proof.
  induction l as [|c' l IH]; simpl; intros Hin; [reflexivity|].
  destruct (String.eqb_spec c' c) as [->|Hne]; [tauto|].
  rewrite IH by tauto. reflexivity.
Qed.

Lemma list_index_found (l : list cas) (c : cas) :
  In c l -> exists i, list_index l c = Ok i.
Proof.
  induction l as [|c' l IH]; simpl; intros Hin; [contradiction|].
  destruct (String.eqb_spec c' c) as [->|Hne]; [eauto|].
  destruct IH as [i ->]; [tauto|]. simpl. eauto.
Qed.

Section Precalculation.

Context `{Externals}.

Lemma integrate_steps_fields (e1 e2 : Experiments) (c : cas)
    (targets : list float) :
  solvent_ds e1 = solvent_ds e2 ->
  initial_concentrations e1 = initial_concentrations e2 ->
  forall r, integrate_steps e1 c r targets = integrate_steps e2 c r targets.
Proof.
  destruct e1 as [ds1 ic1 rs1 pre1 cn1 all1], e2 as [ds2 ic2 rs2 pre2 cn2 all2].
  simpl. intros <- <-.
  induction targets as [|ti ts IH]; intros r; [reflexivity|].
  cbn [integrate_steps].
  change (fun t x => _rate (mkExperiments ds1 ic1 rs2 pre2 cn2 all2) t x c)
    with (fun t x => _rate (mkExperiments ds1 ic1 rs1 pre1 cn1 all1) t x c).
  destruct (vode_integrate _ r ti) as [[r' y]|e]; [|reflexivity].
  cbn [rbind initial_concentrations].
  destruct (assign_row _ y) as [row|e]; [|reflexivity].
  cbn [rbind]. destruct (vode_successful r'); [|reflexivity].
  now rewrite IH.
Qed.

(** [_run] looks at the dataset, the concentrations and the random state
    of the oracle only. *)
Lemma _run_fields (e1 e2 : Experiments) (c : cas) (t s : float) (h : Heap) :
  solvent_ds e1 = solvent_ds e2 ->
  initial_concentrations e1 = initial_concentrations e2 ->
  random_state e1 = random_state e2 ->
  _run e1 c t s h = _run e2 c t s h.
Proof.
  intros Hds Hic Hrs.
  unfold _run, _run_series, bind, randn, lift, _integrate_rate.
  rewrite Hrs, Hic.
  destruct (time_grid _ s) as [trange|e]; [|reflexivity]. cbn [rbind].
  rewrite (integrate_steps_fields e1 e2 c (tl trange) Hds Hic).
  destruct e1, e2. simpl in *. subst. reflexivity.
Qed.

(** A list comprehension of [_run]: one draw per element, in order. *)
Lemma mapM__run_draws (self : Experiments) (t s : float) (l : list cas) :
  forall (h h' : Heap) (vs : list (float * float)),
    mapM (fun c => _run self c t s) l h = (Ok vs, h') ->
    (forall k, cell h' (random_state self) k
               = cell h (random_state self) (List.length l + k)%nat)
    /\ (forall r, r <> random_state self -> cell h' r = cell h r)
    /\ (forall i c,
          nth_error l i = Some c ->
          exists v,
            nth_error vs i = Some v
            /\ forall hh,
                 cell hh (random_state self) 0%nat
                 = cell h (random_state self) i ->
                 fst (_run self c t s hh) = Ok v).
Proof.
  induction l as [|c l IH]; simpl; intros h h' vs Hm.
  - injection Hm as <- <-. repeat split; auto.
    intros [|i] c; discriminate.
  - unfold bind in Hm.
    pose proof (_run_heap self c t s h) as Hh.
    destruct (_run self c t s h) as [[v|e] h1] eqn:Er; [|discriminate].
    simpl in Hh. subst h1.
    destruct (mapM _ l _) as [[vs'|e] h2] eqn:Em; [|discriminate].
    injection Hm as <- <-.
    destruct (IH _ _ _ Em) as (Hcell & Hother & Hres).
    split; [|split].
    + intros k. rewrite Hcell. simpl. rewrite Nat.eqb_refl.
      f_equal; lia.
    + intros r Hr. rewrite (Hother r Hr). simpl.
      destruct (Nat.eqb_spec r (random_state self)); [contradiction|].
      reflexivity.
    + intros [|i] c' Hc'; simpl in Hc'.
      * injection Hc' as <-. exists v. split; [reflexivity|].
        intros hh Hhh.
        rewrite (_run_reads_next_draw self c t s hh h Hhh), Er. reflexivity.
      * destruct (Hres i c' Hc') as [v' [Hv' Hrun]].
        exists v'. split; [exact Hv'|].
        intros hh Hhh. apply Hrun. rewrite Hhh. simpl.
        now rewrite Nat.eqb_refl.
Qed.

Lemma Experiments_init_precalculated (ds : DataSet) (r : ref)
    (ic : option (list float)) (h h' : Heap) (e : Experiments) :
  Experiments_init (PyDataSet ds) (Some r) ic true h = (Ok e, h') ->
  exists table,
    e = mkExperiments ds (get ic default_initial_concentrations) r true
                      (index_values ds) (Some table)
    /\ mapM (fun c => _run (mkExperiments ds
                              (get ic default_initial_concentrations) r true
                              (index_values ds) None)
                           c default_rxn_time default_step_size)
            (index_values ds) h = (Ok table, h').
Proof.
  unfold Experiments_init, bind, lift, ret. simpl.
  fold (get ic default_initial_concentrations).
  destruct (mapM _ (index_values ds) h) as [[table|x] h1]; [|discriminate].
  intros [= <- <-]. eauto.
Qed.

(** X9.  Construction with [pre_calculate=True] draws exactly one number
    per solvent of the index from the random state it is given and touches
    no other random state; without pre-calculation it draws nothing. *)
Theorem Experiments_init_draws (ds : DataSet) (r : ref)
    (ic : option (list float)) (pre : bool) (h h' : Heap)
    (e : Experiments) :
  Experiments_init (PyDataSet ds) (Some r) ic pre h = (Ok e, h') ->
  (forall k, cell h' r k
             = cell h r ((if pre then List.length ds else 0) + k)%nat)
  /\ (forall r', r' <> r -> cell h' r' = cell h r').
Proof.
  destruct pre.
  - intros He. apply Experiments_init_precalculated in He as [table [_ Hm]].
    apply mapM__run_draws in Hm as (Hcell & Hother & _). simpl in *.
    unfold index_values in Hcell. rewrite length_map in Hcell.
    split; assumption.
  - unfold Experiments_init, bind, lift, ret. simpl.
    intros [= _ <-]. split; reflexivity.
Qed.

(** X10.  A pre-calculated oracle serves, for the solvent at position [i]
    of the index (its first occurrence), in any heap and without touching
    it, the very result a direct evaluation [_run] of that solvent gives
    when its draw is the [i]-th draw of the random state at construction.
    For a solvent that is not in the index it raises [ValueError]. *)
Theorem precalculated_run (ds : DataSet) (r : ref)
    (ic : option (list float)) (h h' : Heap) (e : Experiments) :
  Experiments_init (PyDataSet ds) (Some r) ic true h = (Ok e, h') ->
  (forall c i,
      list_index (index_values ds) c = Ok i ->
      exists v,
        (forall hh, run e c hh = (Ok v, hh))
        /\ (forall hh,
              cell hh r 0%nat = cell h r i ->
              fst (_run e c default_rxn_time default_step_size hh) = Ok v))
  /\ (forall c hh,
        ~ In c (index_values ds) ->
        run e c hh = (Raise (ValueError "is not in list"), hh)).
Proof.
  intros He. apply Experiments_init_precalculated in He as [table [-> Hm]].
  apply mapM__run_draws in Hm as (_ & _ & Hres). simpl in Hres.
  split.
  - intros c i Hi. pose proof (list_index_Ok _ _ _ Hi) as [Hn _].
    destruct (Hres i c Hn) as [v [Hv Hrun]].
    exists v. split.
    + intros hh. unfold run, lift. simpl. rewrite Hi. simpl.
      unfold getitem. now rewrite Hv.
    + intros hh Hhh. rewrite <- (Hrun hh Hhh). f_equal.
      now apply _run_fields.
  - intros c hh Hc. unfold run, lift. simpl.
    now rewrite (list_index_missing _ _ Hc).
Qed.

End Precalculation.

Lemma Experiments_init_draws_witness :
  exists e h',
    @Experiments_init Toy.externals (PyDataSet Toy.solvents) (Some 0%nat)
      None true {| cell := fun _ k => of_Z (Z.of_nat k); next_ref := 1%nat |}
    = (Ok e, h')
    /\ cell h' 0%nat 0%nat = of_Z 2.
Proof.
  destruct (@Experiments_init Toy.externals (PyDataSet Toy.solvents)
              (Some 0%nat) None true
              {| cell := fun _ k => of_Z (Z.of_nat k); next_ref := 1%nat |})
    as [[e|x] h'] eqn:Hinit.
  - exists e, h'. split; [reflexivity|].
    destruct (@Experiments_init_draws Toy.externals _ _ _ _ _ _ _ Hinit)
      as [Hcell _].
    rewrite (Hcell 0%nat). reflexivity.
  - exfalso. vm_compute in Hinit. discriminate.
Defined.

Lemma precalculated_run_witness :
  exists e h',
    @Experiments_init Toy.externals (PyDataSet Toy.solvents) (Some 0%nat)
      None true (Toy.heap zero) = (Ok e, h')
    /\ (exists v, forall hh, @run Toy.externals e Toy.toluene hh = (Ok v, hh))
    /\ (forall hh, @run Toy.externals e "64-17-5"%string hh
                   = (Raise (ValueError "is not in list"), hh)).
Proof.
  destruct (@Experiments_init Toy.externals (PyDataSet Toy.solvents)
              (Some 0%nat) None true (Toy.heap zero))
    as [[e|x] h'] eqn:Hinit.
  - exists e, h'. split; [reflexivity|].
    destruct (@precalculated_run Toy.externals _ _ _ _ _ _ Hinit)
      as [Hknown Hunknown].
    split.
    + destruct (Hknown Toy.toluene 1%nat eq_refl) as [v [Hv _]]. eauto.
    + intros hh. apply Hunknown. simpl. intros [E|[E|[]]]; discriminate.
  - exfalso. vm_compute in Hinit. discriminate.
Defined.

(** ** Short reaction times *)

Lemma time_grid_points (tn s : Q) :
  (0 <= tn)%Q -> (0 < s)%Q ->
  exists trange,
    time_grid (Fin tn) (Fin s) = Ok trange
    /\ List.length trange = Z.to_nat (Qfloor (tn / s)).
Proof.
  intros Ht Hs. unfold time_grid.
  rewrite to_int_quotient by assumption. simpl rbind.
  assert (Hn : 0 <= Qfloor (tn / s)).
  { change 0 with (Qfloor 0). apply Qfloor_resp_le.
    apply Qle_shift_div_l; [assumption|]. lra. }
  destruct (linspace_length (of_Z 0) (Fin tn) _ Hn) as [l [Hl [Hlen _]]].
  eauto.
Qed.

Lemma Qfloor_unit_interval (q : Q) (n : Z) :
  (inject_Z n <= q)%Q -> (q < inject_Z (n + 1))%Q -> Qfloor q = n.
Proof.
  intros Hlo Hhi.
  pose proof (Qfloor_le q) as H1. pose proof (Qlt_floor q) as H2.
  assert (Qfloor q < n + 1).
  { rewrite Zlt_Qlt. eapply Qle_lt_trans; eassumption. }
  assert (n < Qfloor q + 1).
  { rewrite Zlt_Qlt. eapply Qle_lt_trans; eassumption. }
  lia.
Qed.

Section ShortReaction.

Context `{Externals}.

(** X11.  When the perturbed reaction time is shorter than two steps, the
    integrator is never called.  Between one and two steps the time grid is
    the single point [0]: [_run] returns [0 / min * 100] as conversion and
    not-a-number as selectivity, for any solvent, known or not.  Below one
    step the grid is empty and [_run] raises [IndexError] when it takes the
    last entry. *)
Theorem _run_short_reaction (self : Experiments) (c : cas)
    (rxn_time : float) (h : Heap) (tn s : Q) :
  noisy_rxn_time rxn_time (cell h (random_state self) 0%nat) = Fin tn ->
  (0 < s)%Q -> (0 <= tn)%Q -> (tn < 2 * s)%Q ->
  (2 <= List.length (initial_concentrations self))%nat ->
  ((s <= tn)%Q ->
   exists m,
     np_min (initial_concentrations self) = Ok m
     /\ fst (_run self c rxn_time (Fin s) h)
        = Ok ((zero / m * of_Z 100)%float, NaN))
  /\ ((tn < s)%Q ->
      fst (_run self c rxn_time (Fin s) h)
      = Raise (IndexError "index -1 is out of bounds")).
Proof.
  intros Htn Hs H0 H2 Hic.
  destruct (time_grid_points tn s H0 Hs) as [trange [Hgrid Hlen]].
  destruct (initial_concentrations self) as [|a [|b ics]] eqn:Eic;
    simpl in Hic; try lia.
  split; intros Hcase.
  - assert (Hq : Qfloor (tn / s) = 1).
    { apply Qfloor_unit_interval.
      - apply Qle_shift_div_l; [assumption|]. change (inject_Z 1) with 1%Q. lra.
      - apply Qlt_shift_div_r; [assumption|].
        change (inject_Z (1 + 1)) with 2%Q. lra. }
    rewrite Hq in Hlen.
    destruct trange as [|g [|g' trange]]; simpl in Hlen; try lia.
    eexists. split; [reflexivity|].
    unfold _run, _run_series, bind, randn, lift, _integrate_rate.
    rewrite Htn, Hgrid, Eic. reflexivity.
  - assert (Hq : Qfloor (tn / s) = 0).
    { apply Qfloor_unit_interval.
      - apply Qle_shift_div_l; [assumption|]. change (inject_Z 0) with 0%Q. lra.
      - apply Qlt_shift_div_r; [assumption|].
        change (inject_Z (0 + 1)) with 1%Q. lra. }
    rewrite Hq in Hlen.
    destruct trange as [|g trange]; simpl in Hlen; try lia.
    unfold _run, _run_series, bind, randn, lift, _integrate_rate.
    rewrite Htn, Hgrid, Eic. reflexivity.
Qed.

End ShortReaction.

Lemma _run_short_reaction_witness :
  fst (@_run Toy.externals Toy.oracle "64-17-5"%string (of_Z 100)
             default_step_size (Toy.heap zero))
  = Raise (IndexError "index -1 is out of bounds").
Proof.
  apply (@_run_short_reaction Toy.externals Toy.oracle "64-17-5"%string
           (of_Z 100) (Toy.heap zero) 100 200);
    try reflexivity; discriminate.
Defined.

(** ** Failure at construction and the shape of the integration *)

Lemma integrate_steps_length `{Externals} (self : Experiments) (c : cas)
    (targets : list float) :
  forall r rows,
    integrate_steps self c r targets = Ok rows ->
    List.length rows = List.length targets.
Proof.
  induction targets as [|ti ts IH]; simpl; intros r rows Hr.
  - now injection Hr as <-.
  - apply rbind_Ok in Hr as [[r' y] [_ Hr]].
    apply rbind_Ok in Hr as [row [_ Hr]].
    destruct (vode_successful r'); [|discriminate].
    apply rbind_Ok in Hr as [rows' [Hrows Hr]]. injection Hr as <-.
    simpl. f_equal. eauto.
Qed.

Section IntegrationShape.

Context `{Externals}.

(** X12.  When [_integrate_rate] returns, its array has one row per point
    of the time grid and one column per initial concentration, and its
    first row is the zero initial state. *)
Theorem _integrate_rate_shape (self : Experiments) (c : cas) (t s : float)
    (x : list (list float)) :
  _integrate_rate self c t s = Ok x ->
  exists trange,
    time_grid t s = Ok trange
    /\ List.length x = List.length trange
    /\ Forall (fun row => List.length row
                          = List.length (initial_concentrations self)) x
    /\ (forall row, hd_error x = Some row ->
                    row = repeat zero
                            (List.length (initial_concentrations self))).
Proof.
  intros Hx. pose proof (_integrate_rate_width _ _ _ _ _ Hx) as Hw.
  revert Hx. unfold _integrate_rate. intros Hx.
  apply rbind_Ok in Hx as [trange [Hgrid Hx]].
  apply rbind_Ok in Hx as [rows [Hrows Hx]]. injection Hx as <-.
  apply integrate_steps_length in Hrows.
  exists trange. split; [assumption|].
  destruct trange as [|g trange]; simpl in *.
  - repeat split; [assumption | discriminate].
  - repeat split; [now rewrite Hrows | assumption | now intros row [= <-]].
Qed.

(** X13.  With [pre_calculate=True] a failure of the integration shows at
    construction: when the integrator reports that it did not succeed for
    solvent [c] of the index, those before it having been evaluated, the
    constructor raises the runtime error that names [c] and no oracle is
    built. *)
Theorem Experiments_init_nonconvergence (ds : DataSet) (r : ref)
    (ic : option (list float)) (h h1 : Heap) (pre post : list cas)
    (c : cas) (done : list (float * float)) (trange : list float) :
  let self := mkExperiments ds (get ic default_initial_concentrations) r true
                            (index_values ds) None in
  index_values ds = pre ++ c :: post ->
  mapM (fun c => _run self c default_rxn_time default_step_size) pre h
    = (Ok done, h1) ->
  time_grid (noisy_rxn_time default_rxn_time (cell h1 r 0%nat))
            default_step_size = Ok trange ->
  reports_nonconvergence self c
    (vode_set_initial_value (fun t x => _rate self t x c) [zero; zero]
                            (of_Z 0))
    (tl trange) = true ->
  exists h',
    Experiments_init (PyDataSet ds) (Some r) ic true h
    = (Raise (RuntimeError ("Could not integrate: " ++ c)), h').
Proof.
  intros self Hidx Hpre Hgrid Hnc.
  pose proof (run_nonconvergence self c h1 trange eq_refl Hgrid Hnc) as Hrun.
  change (run self c h1)
    with (_run self c default_rxn_time default_step_size h1) in Hrun.
  pose proof (mapM_app_raise
                (fun c => _run self c default_rxn_time default_step_size)
                pre post c done _ h h1 _ Hpre Hrun) as Hall.
  unfold Experiments_init, bind, lift, ret. simpl.
  fold (get ic default_initial_concentrations). fold self.
  rewrite Hidx, Hall. eauto.
Qed.

End IntegrationShape.

Lemma _integrate_rate_shape_witness :
  exists x trange,
    @_integrate_rate Toy.externals Toy.oracle Toy.acetone (of_Z 600)
                     default_step_size = Ok x
    /\ time_grid (of_Z 600) default_step_size = Ok trange
    /\ List.length x = List.length trange.
Proof.
  destruct (@_integrate_rate Toy.externals Toy.oracle Toy.acetone (of_Z 600)
              default_step_size) as [x|e] eqn:Hx.
  - destruct (@_integrate_rate_shape Toy.externals _ _ _ _ _ Hx)
      as [trange [Hgrid [Hlen _]]].
    exists x, trange. repeat split; assumption.
  - exfalso. vm_compute in Hx. discriminate.
Defined.

Lemma Experiments_init_nonconvergence_witness :
  exists h',
    @Experiments_init Toy.diverging (PyDataSet Toy.solvents) (Some 0%nat)
      None true (Toy.heap zero)
    = (Raise (RuntimeError "Could not integrate: 67-64-1"), h').
Proof.
  eapply (@Experiments_init_nonconvergence Toy.diverging Toy.solvents 0%nat
            None (Toy.heap zero) (Toy.heap zero) [] [Toy.toluene]
            Toy.acetone []);
    [reflexivity | reflexivity | vm_compute; reflexivity
    | vm_compute; reflexivity].
Defined.

(** ** Errors of the rate function *)

Lemma loc_missing (ds : DataSet) (c : cas) :
  ~ In c (index_values ds) -> loc ds c = Raise (KeyError c).
Proof.
  induction ds as [|[c' v] ds IH]; simpl; intros Hin; [reflexivity|].
  destruct (String.eqb_spec c' c) as [->|Hne]; [tauto|].
  apply IH. tauto.
Qed.

Lemma getitem_Ok {A} (l : list A) (i : nat) :
  (i < List.length l)%nat -> exists a, getitem l i = Ok a.
Proof.
  intros Hi. unfold getitem.
  destruct (nth_error l i) eqn:E; [eauto|].
  apply nth_error_None in E. lia.
Qed.

Lemma getitem_out_of_range {A} (l : list A) (i : nat) :
  (List.length l <= i)%nat ->
  getitem l i = Raise (IndexError "index out of range").
Proof.
  intros Hi. unfold getitem.
  now rewrite (proj2 (nth_error_None l i) Hi).
Qed.

Section RateErrors.

Context `{Externals}.

(** X14.  [_rate] needs the solvent in the index of the dataset and three
    descriptor components: for an unknown solvent it raises [KeyError] with
    its CAS number, for a solvent with fewer than three components
    [IndexError]; with three components, two initial concentrations and a
    state of two entries it returns the two rates. *)
Theorem _rate_errors (self : Experiments) (t : float) (x : list float)
    (c : cas) :
  (~ In c (index_values (solvent_ds self)) ->
   _rate self t x c = Raise (KeyError c))
  /\ (forall v,
        loc (solvent_ds self) c = Ok v -> (List.length v < 3)%nat ->
        _rate self t x c = Raise (IndexError "index out of range"))
  /\ (forall v,
        loc (solvent_ds self) c = Ok v -> (3 <= List.length v)%nat ->
        (2 <= List.length (initial_concentrations self))%nat ->
        (2 <= List.length x)%nat ->
        exists x1dot x2dot, _rate self t x c = Ok [x1dot; x2dot]).
Proof.
  unfold _rate. split; [|split].
  - intros Hc. now rewrite (loc_missing _ _ Hc).
  - intros v -> Hv. cbn [rbind].
    destruct v as [|p1 [|p2 [|p3 v]]]; simpl in Hv; try lia; reflexivity.
  - intros v -> Hv Hic Hx. cbn [rbind].
    destruct v as [|p1 [|p2 [|p3 v]]]; simpl in Hv; try lia.
    unfold ca, cb.
    destruct (initial_concentrations self) as [|a [|b ics]];
      simpl in Hic; try lia.
    destruct x as [|x0 [|x1 x]]; simpl in Hx; try lia.
    do 2 eexists. reflexivity.
Qed.

End RateErrors.

(** ** The dataset of principal components *)

Lemma combine_fst {A B} (l : list A) :
  forall l' : list B,
    List.length l = List.length l' -> map fst (combine l l') = l.
Proof.
  induction l as [|a l IH]; intros [|b l'] E; simpl in *; try discriminate;
    [reflexivity|].
  f_equal. apply IH. lia.
Qed.

Section CandidateSpaceProperties.

Context `{Externals}.

(** X15.  When [create_pcs_ds] returns, the dataset of its pair has the
    index of the merged table of solvents, row for row, every row holds
    [num_components] values, and the merged table held at least one value
    that is not a nan. *)
Theorem create_pcs_ds_shape (num_components : Z) (o : pyobj) :
  create_pcs_ds num_components = Ok o ->
  exists full final ds pca,
    read_solvent_tables = Ok (full, final)
    /\ o = PyTuple ds pca
    /\ index_values ds = index_values final
    /\ Forall (fun row => Z.of_nat (List.length (snd row)) = num_components)
              ds
    /\ exists row v, In row final /\ In v (snd row) /\ v <> NaN.
Proof.
  unfold create_pcs_ds. intros Ho.
  apply rbind_Ok in Ho as [[full final] [Hread Ho]].
  apply rbind_Ok in Ho as [[] [Hguard Ho]].
  apply rbind_Ok in Ho as [[pca pcs] [_ Ho]].
  apply rbind_Ok in Ho as [pc_df [Hdf Ho]]. injection Ho as <-.
  exists full, final, pc_df, pca. repeat split; try assumption.
  - unfold DataFrame in Hdf.
    destruct (_ && _)%bool eqn:E; [|discriminate]. injection Hdf as <-.
    apply andb_prop in E as [E _]. apply Nat.eqb_eq in E.
    unfold index_values at 1. rewrite combine_fst; [reflexivity|].
    unfold index_values. rewrite length_map. unfold index_values in E.
    rewrite length_map in E. lia.
  - unfold DataFrame in Hdf.
    destruct (_ && _)%bool eqn:E; [|discriminate]. injection Hdf as <-.
    apply andb_prop in E as [_ E]. rewrite forallb_forall in E.
    apply Forall_forall. intros [c row] Hin. simpl.
    apply in_combine_r in Hin. apply Z.eqb_eq. now apply E.
  - unfold descriptor_guard in Hguard.
    destruct (check_all (map snd final)) eqn:Ec; [discriminate|].
    unfold check_all in Ec.
    assert (Hex : exists vs, In vs (map snd final) /\ forallb isnan vs = false).
    { clear -Ec. induction (map snd final) as [|vs l IH]; simpl in Ec;
        [discriminate|].
      apply andb_false_iff in Ec as [Ec|Ec]; [exists vs; simpl; auto|].
      destruct (IH Ec) as [vs' [Hin Hvs]]. exists vs'. simpl. auto. }
    destruct Hex as [vs [Hin Hvs]].
    apply in_map_iff in Hin as [row [<- Hrow]].
    assert (Hv : exists v, In v (snd row) /\ isnan v = false).
    { clear -Hvs. induction (snd row) as [|v l IH]; simpl in Hvs;
        [discriminate|].
      apply andb_false_iff in Hvs as [Hv|Hv]; [exists v; simpl; auto|].
      destruct (IH Hv) as [v' [Hin Hv']]. exists v'. simpl. auto. }
    destruct Hv as [v [Hin Hv]].
    exists row, v. repeat split; try assumption.
    intros ->. discriminate.
Qed.

(** X16.  Once the tables are read, [create_pcs_ds] stops with
    [AssertionError], before any principal component is fitted, when the
    merged table is empty or holds nothing but nan. *)
Theorem create_pcs_ds_all_nan (num_components : Z) (full final : DataSet) :
  read_solvent_tables = Ok (full, final) ->
  Forall (fun row => Forall (fun v => v = NaN) (snd row)) final ->
  create_pcs_ds num_components = Raise AssertionError.
Proof.
  intros Hread Hnan. unfold create_pcs_ds. rewrite Hread. cbn [rbind].
  assert (Hg : descriptor_guard (map snd final) = Raise AssertionError).
  { unfold descriptor_guard.
    replace (check_all (map snd final)) with true; [reflexivity|].
    symmetry. apply check_all_spec. now apply Forall_map. }
  now rewrite Hg.
Qed.

End CandidateSpaceProperties.

Lemma create_pcs_ds_shape_witness :
  exists ds pca,
    @create_pcs_ds Toy.externals 2 = Ok (PyTuple ds pca)
    /\ index_values ds = [Toy.acetone; Toy.toluene]
    /\ Forall (fun row => Z.of_nat (List.length (snd row)) = 2) ds.
Proof.
  destruct (@create_pcs_ds Toy.externals 2) as [o|e] eqn:Ho;
    [|exfalso; vm_compute in Ho; discriminate].
  destruct (@create_pcs_ds_shape Toy.externals 2 o Ho)
    as (full & final & ds & pca & Hread & -> & Hidx & Hrows & _).
  exists ds, pca. split; [reflexivity|]. split; [|exact Hrows].
  rewrite Hidx. injection Hread as _ <-. reflexivity.
Defined.

Lemma create_pcs_ds_all_nan_witness :
  @create_pcs_ds
    (with_tables Toy.externals
       (Ok (Toy.solvents, [(Toy.acetone, [NaN; NaN; NaN])]))) 3
  = Raise AssertionError.
Proof.
  eapply (@create_pcs_ds_all_nan
            (with_tables Toy.externals
               (Ok (Toy.solvents, [(Toy.acetone, [NaN; NaN; NaN])])))).
  - reflexivity.
  - repeat constructor.
Defined.

(** ** The methods of the evolutionary optimization *)

Lemma item_cases {A} (l : list A) (k : Z) :
  let n := Z.of_nat (List.length l) in
  (- n <= k < n -> exists a, item l k = Ok a)
  /\ (~ - n <= k < n ->
      item l k = Raise (IndexError "index is out of bounds")).
Proof.
  intros n. unfold item. fold n. split; intros Hk.
  - destruct (Z.leb_spec 0 k); destruct (Z.ltb_spec k n); simpl;
      try (apply getitem_Ok; lia).
    + lia.
    + destruct (Z.leb_spec (- n) k); destruct (Z.ltb_spec k 0); simpl;
        try lia.
      apply getitem_Ok. lia.
    + lia.
  - destruct (Z.leb_spec 0 k); destruct (Z.ltb_spec k n); simpl; try lia;
      destruct (Z.leb_spec (- n) k); destruct (Z.ltb_spec k 0); simpl;
      try lia; reflexivity.
Qed.

(** X17.  [_generator] proposes one index between [1] and the number of
    solvents, both included: never [0], the first solvent, and possibly
    the number of solvents itself, which is one past the last position.
    Without solvents it raises [ValueError]. *)
Theorem _generator_range (self : SolventEvolutionaryOptimization)
    (random : PyRandom) :
  let n := Z.of_nat (List.length (seo_cas_numbers self)) in
  (seo_cas_numbers self <> [] ->
   (exists k, fst (_generator self random) = Ok [k] /\ 1 <= k <= n)
   /\ fst (_generator self (fun _ => n - 1)) = Ok [n])
  /\ (seo_cas_numbers self = [] ->
      fst (_generator self random)
      = Raise (ValueError "empty range for randrange()")).
Proof.
  intros n. unfold _generator, randint. fold n. split.
  - intros Hne.
    assert (Hn : 1 <= n).
    { unfold n. destruct (seo_cas_numbers self); [congruence | simpl; lia]. }
    replace (n + 1 - 1) with n by lia.
    destruct (Z.leb_spec n 0); [lia|]. cbn [fst rbind]. split.
    + eexists. split; [reflexivity|].
      pose proof (Z.mod_pos_bound (random 0%nat) n ltac:(lia)). lia.
    + do 2 f_equal. rewrite Z.mod_small by lia. lia.
  - intros E. unfold n. rewrite E. reflexivity.
Qed.

Lemma _generator_range_witness :
  (exists k, fst (_generator toy_seo (fun _ => 7)) = Ok [k] /\ 1 <= k <= 2)
  /\ fst (_generator toy_seo (fun _ => 2 - 1)) = Ok [2].
Proof.
  apply (_generator_range toy_seo (fun _ => 7)). discriminate.
Defined.

(** X18.  [_evaluator] never evaluates a candidate: on an empty population
    it returns an empty fitness list, and otherwise it raises on the first
    candidate, [IndexError] when the candidate is empty or its index lies
    outside the array of CAS numbers (as the number of solvents, which
    [_generator] can propose), and [NameError] for the unbound name
    [experiment] when the index is valid. *)
Theorem _evaluator_never_evaluates (self : SolventEvolutionaryOptimization)
    (candidates : list (list Z)) :
  let n := Z.of_nat (List.length (seo_cas_numbers self)) in
  _evaluator self candidates
  = match candidates with
    | [] => Ok ([], seo_solvents_evaluated self)
    | [] :: _ => Raise (IndexError "index out of range")
    | (k :: _) :: _ =>
        if ((- n <=? k) && (k <? n))%bool
        then Raise (NameError "name 'experiment' is not defined")
        else Raise (IndexError "index is out of bounds")
    end.
Proof.
  intros n. unfold _evaluator.
  destruct candidates as [|[|k index] rest]; try reflexivity.
  cbn [_evaluator_loop getitem nth_error rbind].
  destruct (item_cases (seo_cas_numbers self) k) as [Hin Hout]. fold n in Hin, Hout.
  destruct (Z.leb_spec (- n) k); destruct (Z.ltb_spec k n); simpl;
    try (rewrite Hout by lia; reflexivity).
  destruct Hin as [c ->]; [lia|]. reflexivity.
Qed.

(** ** The sweep *)

Lemma for_each_raises {A} (a : A) (l : list A) (body : A -> M unit)
    (h : Heap) :
  (exists e, fst (body a h) = Raise e) ->
  fst (for_each (a :: l) body h) = fst (body a h).
Proof.
  intros [e He]. simpl. unfold bind.
  destruct (body a h) as [[[]|e'] h']; simpl in *; [discriminate|reflexivity].
Qed.

Lemma zrange_positive (n : Z) :
  1 <= n -> exists l, zrange n = 0 :: l.
Proof.
  intros Hn. unfold zrange.
  replace (Z.to_nat n) with (S (Z.to_nat (n - 1))) by lia.
  simpl. eauto.
Qed.

Section SweepProperties.

Context `{Externals}.

Lemma descriptors_optimization_raises (save : bool) (kw : kwargs)
    (h : Heap) :
  exists e, fst (descriptors_optimization save kw h) = Raise e.
Proof.
  unfold descriptors_optimization, bind.
  destruct (RandomState_new_cases
              (get (kw_random_seed kw) constants.RANDOM_SEED) h)
    as [[e He]|[_ [h' Hh]]].
  - rewrite He. eexists. reflexivity.
  - rewrite Hh. unfold lift.
    destruct (create_pcs_ds _) as [o|e] eqn:Ho; [|eexists; reflexivity].
    destruct (create_pcs_ds_tuple _ _ Ho) as [ds [pca ->]].
    unfold descriptors_optimization_from, bind.
    rewrite Experiments_init_tuple. eexists. reflexivity.
Qed.

Lemma repeat_test_design_cases (num_repeats : Z) (d : design) (h : Heap) :
  0 <= sweep_num_batches d - 1 ->
  fst (repeat_test_design num_repeats d h)
  = if num_repeats <? 0
    then Raise (ValueError "negative dimensions are not allowed")
    else if num_repeats =? 0 then Ok tt
    else rbind (fst (descriptors_optimization false
                       (sweep_kwargs d (sweep_num_batches d) 0) h))
               (fun _ => Ok tt).
Proof.
  intros Hnb. unfold repeat_test_design, bind, lift, np_zeros.
  change (constants.NUM_COMPONENTS <? 0) with false. cbn [rbind].
  destruct (Z.ltb_spec (sweep_num_batches d - 1) 0); [lia|]. cbn [rbind].
  destruct (Z.ltb_spec num_repeats 0); [reflexivity|].
  destruct (Z.eqb_spec num_repeats 0) as [->|Hne]; [reflexivity|].
  destruct (zrange_positive num_repeats) as [l ->]; [lia|].
  rewrite for_each_raises.
  - unfold bind.
    destruct (descriptors_optimization false _ h) as [[r|e] h'];
      reflexivity.
  - destruct (descriptors_optimization_raises false
                (sweep_kwargs d (sweep_num_batches d) 0) h) as [e He].
    exists e. unfold bind.
    destruct (descriptors_optimization false _ h) as [[r|e'] h'];
      simpl in *; [discriminate | congruence].
Qed.

(** X19.  [repeat_test] with at least one repeat never completes: it stops
    in the first run of the first of its 48 designs (no normalization,
    batches of 4, centred design, 10 batches, seed 1000) with the exception
    of [descriptors_optimization].  With no repeat it goes through the
    designs and returns; with a negative number of repeats it raises the
    error of [np.zeros]. *)
Theorem repeat_test_outcome (num_repeats : Z) (h : Heap) :
  fst (repeat_test num_repeats h)
  = (if num_repeats <? 0
     then Raise (ValueError "negative dimensions are not allowed")
     else if num_repeats =? 0 then Ok tt
     else rbind (fst (descriptors_optimization false
                        (sweep_kwargs (mk_design false false 4 "center" 4)
                                      10 0) h))
                (fun _ => Ok tt))
  /\ (1 <= num_repeats -> exists e, fst (repeat_test num_repeats h) = Raise e).
Proof.
  assert (Hmain :
    fst (repeat_test num_repeats h)
    = (if num_repeats <? 0
       then Raise (ValueError "negative dimensions are not allowed")
       else if num_repeats =? 0 then Ok tt
       else rbind (fst (descriptors_optimization false
                          (sweep_kwargs (mk_design false false 4 "center" 4)
                                        10 0) h))
                  (fun _ => Ok tt))).
  { unfold repeat_test, bind, lift.
    destruct (fullfact levels) as [doe|e] eqn:Edoe;
      [|vm_compute in Edoe; discriminate].
    destruct (map_result design_of_row doe) as [designs|e] eqn:Ed;
      [|vm_compute in Edoe; injection Edoe as <-; vm_compute in Ed;
        discriminate].
    vm_compute in Edoe. injection Edoe as <-. vm_compute in Ed.
    injection Ed as <-.
    pose proof (repeat_test_design_cases num_repeats
                  (mk_design false false 4 "center" 4) h) as Hfirst.
    change (sweep_num_batches (mk_design false false 4 "center" 4))
      with 10 in Hfirst.
    specialize (Hfirst ltac:(lia)).
    destruct (Z.ltb_spec num_repeats 0).
    - rewrite for_each_raises; [exact Hfirst | rewrite Hfirst; eauto].
    - destruct (Z.eqb_spec num_repeats 0) as [->|Hne]; [reflexivity|].
      rewrite for_each_raises; [exact Hfirst|].
      rewrite Hfirst.
      destruct (descriptors_optimization_raises false
                  (sweep_kwargs (mk_design false false 4 "center" 4) 10 0) h)
        as [e ->]. eexists. reflexivity. }
  split; [exact Hmain|].
  intros Hn. rewrite Hmain.
  destruct (Z.ltb_spec num_repeats 0); [lia|].
  destruct (Z.eqb_spec num_repeats 0); [lia|].
  destruct (descriptors_optimization_raises false
              (sweep_kwargs (mk_design false false 4 "center" 4) 10 0) h)
    as [e ->]. eexists. reflexivity.
Qed.

End SweepProperties.

Lemma repeat_test_outcome_witness :
  fst (@repeat_test Toy.externals 50 (Toy.heap zero))
  = Raise tuple_has_no_index_values.
Proof.
  rewrite (proj1 (@repeat_test_outcome Toy.externals 50 (Toy.heap zero))).
  reflexivity.
Defined.

(** ** The size of a proposed design *)

Section DesignSize.

Context `{Externals}.

(** X20.  [generate_initial_experiment_data] accepts from the designer
    only a design of exactly [batch_size] solvents: after evaluating the
    whole design it raises [IndexError] when the design is empty, and
    [ValueError] when its length differs from [batch_size], the batch
    column having [batch_size] entries. *)
Theorem generate_initial_experiment_data_wrong_size (domain : Domain)
    (solvent_ds : pyobj) (batch_size : Z) (random_state : ref)
    (experiments : Experiments) (criterion : string) (h h' : Heap)
    (design : list cas) (rs' : RandomState)
    (results : list (float * float)) :
  LatinDesigner_generate_experiments domain batch_size criterion
    (cell h random_state) = (Ok design, rs') ->
  mapM (run experiments) design (heap_set h random_state rs')
    = (Ok results, h') ->
  0 <= batch_size ->
  List.length design <> Z.to_nat batch_size ->
  generate_initial_experiment_data domain solvent_ds batch_size random_state
    experiments criterion h
  = (Raise (if Nat.eqb (List.length design) 0
            then IndexError "too many indices for array"
            else ValueError "arrays must all be same length"), h').
Proof.
  intros Hd Hm Hb Hlen.
  unfold generate_initial_experiment_data, bind, lift, LatinDesigner.
  rewrite Hd, Hm.
  pose proof (mapM_Ok_length _ _ _ _ _ Hm) as Hres.
  destruct results as [|r results]; destruct design as [|c design];
    simpl in Hres; try discriminate; [reflexivity|].
  f_equal. unfold columns, np_full.
  destruct (Z.ltb_spec batch_size 0); [lia|]. cbn [rbind].
  unfold DataSet_of_columns.
  rewrite !length_map, repeat_length.
  replace (Nat.eqb (Z.to_nat batch_size) (List.length (r :: results)))
    with false.
  - rewrite andb_false_r. reflexivity.
  - symmetry. apply Nat.eqb_neq. simpl in *. lia.
Qed.


End DesignSize.

Lemma generate_initial_experiment_data_wrong_size_witness :
  fst (@generate_initial_experiment_data
         (with_designer Toy.externals [Toy.acetone; Toy.toluene])
         (create_domain (PyDataSet Toy.solvents)) (PyDataSet Toy.solvents) 8
         default_random_state Toy.cached "center" (Toy.heap zero))
  = Raise (ValueError "arrays must all be same length").
Proof.
  pose proof (@generate_initial_experiment_data_wrong_size
                (with_designer Toy.externals [Toy.acetone; Toy.toluene])
                (create_domain (PyDataSet Toy.solvents))
                (PyDataSet Toy.solvents) 8 default_random_state Toy.cached
                "center"%string (Toy.heap zero) _
                [Toy.acetone; Toy.toluene] _ _ eq_refl eq_refl)
    as Hwrong.
  rewrite Hwrong; [reflexivity | lia | simpl; lia].
Defined.


(** ** The default random state *)

Section DefaultRandomState.

Context `{Externals}.


End DefaultRandomState.

